(** * co2meter: a USB CO2 sensor driver (drivers/usb/misc/co2meter.c)

    The driver's entry points are embedded as programs over an explicit
    kernel state. A program is a tree of atomic steps, so that the same
    embedding can be run to completion on its own (the sequential reading
    of an entry point) or interleaved step by step with other entry points
    (the reading needed for the detach/open race). *)

From stdpp Require Import gmap list.
From Stdlib Require Import ZArith Lia String.
From Stdlib.Strings Require Import Byte.

Open Scope Z_scope.

(** ** Errno values and driver constants *)

Definition ENXIO  : Z := 6.
Definition ENOMEM : Z := 12.
Definition ENODEV : Z := 19.
Definition EINVAL : Z := 22.

Definition CO2MON_MINOR_BASE  : Z := 192.
Definition USB_BUF_SIZE       : Z := 16.
Definition CO2METER_DATA_SIZE : Z := 32.

(** ** Data *)

(** Addresses of [struct usb_co2meter] objects. A pointer is [option loc],
    [None] being NULL. *)
Abbreviation loc := positive (only parsing).

(** [struct work_struct]: only the pending bit matters to the driver. *)
Record work_struct := { pending : bool }.

(** [struct usb_co2meter]. The [lock] is [true] while the mutex is held.
    [active_device] and [active_interface] are opaque handles that the
    driver only passes on, so they are not represented; of the endpoint
    descriptor only [bEndpointAddress] is read. *)
Record usb_co2meter := {
  lock          : bool;
  work_data     : work_struct;
  read_endpoint : Z;
  co2_level     : Z;   (* u32 *)
  ready         : Z    (* int *)
}.

(** [struct co2meter_file_data]: [buf] is the whole [char buf[32]],
    [buf_size] the number of valid bytes in it. *)
Record co2meter_file_data := {
  buf      : list byte;
  buf_size : Z
}.

(** The part of the kernel the driver touches.
    - [heap]: the live [struct usb_co2meter] objects; an address that is
      not in the map is not allocated (never allocated, or freed);
    - [node]: the minor under which the interface has a device node, if any;
    - [intfdata]: the interface's driver data pointer;
    - [wq_running]: whether the work queue is executing the work item;
    - [private_data]: [file->private_data] of every [struct file], NULL
      when absent;
    - [klog]: the messages written with [dev_err];
    - [freed]: the objects given to [kfree], as they were at that moment
      (kept for inspection; nothing reads it);
    - [freed_sessions]: the sessions given to [kfree], likewise;
    - [minor_rwsem]: the readers of the host's minor table, when the host
      keeps deregistration out while an open is in flight ([None] when it
      does not; see [usb_open]). *)
Record kstate := {
  heap          : gmap loc usb_co2meter;
  node          : option Z;
  intfdata      : option loc;
  wq_running    : bool;
  private_data  : gmap nat co2meter_file_data;
  klog          : list string;
  freed         : list usb_co2meter;
  freed_sessions : list co2meter_file_data;
  minor_rwsem   : option nat
}.

Definition set_lock (b : bool) (d : usb_co2meter) : usb_co2meter :=
  {| lock := b; work_data := work_data d; read_endpoint := read_endpoint d;
     co2_level := co2_level d; ready := ready d |}.

Definition set_pending (b : bool) (d : usb_co2meter) : usb_co2meter :=
  {| lock := lock d; work_data := {| pending := b |};
     read_endpoint := read_endpoint d;
     co2_level := co2_level d; ready := ready d |}.

Definition set_read_endpoint (v : Z) (d : usb_co2meter) : usb_co2meter :=
  {| lock := lock d; work_data := work_data d; read_endpoint := v;
     co2_level := co2_level d; ready := ready d |}.

Definition set_co2_level (v : Z) (d : usb_co2meter) : usb_co2meter :=
  {| lock := lock d; work_data := work_data d; read_endpoint := read_endpoint d;
     co2_level := v; ready := ready d |}.

Definition set_ready (v : Z) (d : usb_co2meter) : usb_co2meter :=
  {| lock := lock d; work_data := work_data d; read_endpoint := read_endpoint d;
     co2_level := co2_level d; ready := v |}.

Definition with_heap (h : gmap loc usb_co2meter) (s : kstate) : kstate :=
  {| heap := h; node := node s; intfdata := intfdata s;
     wq_running := wq_running s; private_data := private_data s;
     klog := klog s; freed := freed s;
     freed_sessions := freed_sessions s;
     minor_rwsem := minor_rwsem s |}.

Definition with_node (n : option Z) (s : kstate) : kstate :=
  {| heap := heap s; node := n; intfdata := intfdata s;
     wq_running := wq_running s; private_data := private_data s;
     klog := klog s; freed := freed s;
     freed_sessions := freed_sessions s;
     minor_rwsem := minor_rwsem s |}.

Definition with_intfdata (p : option loc) (s : kstate) : kstate :=
  {| heap := heap s; node := node s; intfdata := p;
     wq_running := wq_running s; private_data := private_data s;
     klog := klog s; freed := freed s;
     freed_sessions := freed_sessions s;
     minor_rwsem := minor_rwsem s |}.

Definition with_wq_running (b : bool) (s : kstate) : kstate :=
  {| heap := heap s; node := node s; intfdata := intfdata s;
     wq_running := b; private_data := private_data s;
     klog := klog s; freed := freed s;
     freed_sessions := freed_sessions s;
     minor_rwsem := minor_rwsem s |}.

Definition with_private_data (m : gmap nat co2meter_file_data) (s : kstate)
  : kstate :=
  {| heap := heap s; node := node s; intfdata := intfdata s;
     wq_running := wq_running s; private_data := m;
     klog := klog s; freed := freed s;
     freed_sessions := freed_sessions s;
     minor_rwsem := minor_rwsem s |}.

Definition with_klog (l : list string) (s : kstate) : kstate :=
  {| heap := heap s; node := node s; intfdata := intfdata s;
     wq_running := wq_running s; private_data := private_data s;
     klog := l; freed := freed s;
     freed_sessions := freed_sessions s;
     minor_rwsem := minor_rwsem s |}.

Definition with_freed (l : list usb_co2meter) (s : kstate) : kstate :=
  {| heap := heap s; node := node s; intfdata := intfdata s;
     wq_running := wq_running s; private_data := private_data s;
     klog := klog s; freed := l;
     freed_sessions := freed_sessions s;
     minor_rwsem := minor_rwsem s |}.

Definition with_freed_sessions (l : list co2meter_file_data) (s : kstate)
  : kstate :=
  {| heap := heap s; node := node s; intfdata := intfdata s;
     wq_running := wq_running s; private_data := private_data s;
     klog := klog s; freed := freed s;
     freed_sessions := l;
     minor_rwsem := minor_rwsem s |}.

Definition with_minor_rwsem (n : option nat) (s : kstate) : kstate :=
  {| heap := heap s; node := node s; intfdata := intfdata s;
     wq_running := wq_running s; private_data := private_data s;
     klog := klog s; freed := freed s;
     freed_sessions := freed_sessions s;
     minor_rwsem := n |}.

(** ** Programs *)

(** What one atomic step does on a state: it completes with a value and a
    new state, it cannot be taken now (the caller sleeps, as in
    [mutex_lock] on a held mutex), or it accesses memory that is not
    there (a NULL or freed pointer). *)
Inductive res (X : Type) : Type :=
| Step (x : X) (s : kstate)
| Wait
| Crash.
Arguments Step {X} x s.
Arguments Wait {X}.
Arguments Crash {X}.

Inductive prog (A : Type) : Type :=
| Return (a : A)
| Act {X : Type} (a : kstate -> res X) (k : X -> prog A).
Arguments Return {A} a.
Arguments Act {A X} a k.

Fixpoint bind {A B : Type} (p : prog A) (f : A -> prog B) : prog B :=
  match p with
  | Return a => f a
  | Act a k => Act a (fun x => bind (k x) f)
  end.

Declare Scope prog_scope.
Delimit Scope prog_scope with prog.
Notation "x <- p ;; q" := (bind p (fun x => q))
  (at level 100, p at level 99, q at level 200, right associativity,
   only parsing) : prog_scope.
Notation "p ;; q" := (bind p (fun _ => q))
  (at level 100, q at level 200, right associativity,
   only parsing) : prog_scope.
Open Scope prog_scope.

Definition atomic {X : Type} (a : kstate -> res X) : prog X := Act a Return.

(** The result of running an entry point alone, with nobody else to
    release what it waits for. *)
Inductive outcome (A : Type) : Type :=
| Ret (a : A) (s : kstate)   (* the call returned [a] *)
| Sleep (s : kstate)         (* the call waits for ever, as in [mutex_lock] *)
| Oops (s : kstate).         (* the call dereferenced an invalid pointer *)
Arguments Ret {A} a s.
Arguments Sleep {A} s.
Arguments Oops {A} s.

Fixpoint run {A : Type} (p : prog A) (s : kstate) : outcome A :=
  match p with
  | Return a => Ret a s
  | Act a k =>
      match a s with
      | Step x s' => run (k x) s'
      | Wait => Sleep s
      | Crash => Oops s
      end
  end.

Definition final {A : Type} (o : outcome A) : kstate :=
  match o with Ret _ s | Sleep s | Oops s => s end.

(** ** Kernel services used by the driver *)

(** Read access to [*p]. *)
Definition load (p : option loc) : prog usb_co2meter :=
  atomic (fun s =>
    match p with
    | None => Crash
    | Some l => match heap s !! l with
                | Some d => Step d s
                | None => Crash
                end
    end).

(** Write access to [*p]: [f] is applied to the object in place. *)
Definition update (p : option loc) (f : usb_co2meter -> usb_co2meter)
  : prog unit :=
  atomic (fun s =>
    match p with
    | None => Crash
    | Some l => match heap s !! l with
                | Some d => Step tt (with_heap (<[l := f d]> (heap s)) s)
                | None => Crash
                end
    end).

(** Modelled from the spec: [mutex_lock]/[mutex_unlock] (kernel/locking),
    the guard, "a mutual-exclusion primitive": locking a held mutex waits
    until it is released. *)
Definition mutex_lock (p : option loc) : prog unit :=
  atomic (fun s =>
    match p with
    | None => Crash
    | Some l => match heap s !! l with
                | Some d => if lock d then Wait
                            else Step tt (with_heap (<[l := set_lock true d]> (heap s)) s)
                | None => Crash
                end
    end).

Definition mutex_unlock (p : option loc) : prog unit :=
  update p (set_lock false).

Definition mutex_init (p : option loc) : prog unit :=
  update p (set_lock false).

(** Modelled from the spec: [schedule_work] and [cancel_work_sync]
    (kernel/workqueue.c), the scheduling collaborator: "schedule this unit
    of work to run" and "cancel and wait for completion of this unit of
    work". *)
Definition schedule_work (p : option loc) : prog unit :=
  update p (set_pending true).

Definition cancel_work_sync (p : option loc) : prog unit :=
  atomic (fun s =>
    match p with
    | None => Crash
    | Some l => match heap s !! l with
                | Some d => if wq_running s then Wait
                            else Step tt (with_heap (<[l := set_pending false d]> (heap s)) s)
                | None => Crash
                end
    end).

Definition dev_err (msg : string) : prog unit :=
  atomic (fun s => Step tt (with_klog (klog s ++ [msg]) s)).

(** [kzalloc(sizeof(struct usb_co2meter))]: [ok] tells whether the
    allocator has memory; the new object is zeroed. *)
Definition zeroed : usb_co2meter :=
  {| lock := false; work_data := {| pending := false |};
     read_endpoint := 0; co2_level := 0; ready := 0 |}.

Definition kzalloc_dev (ok : bool) : prog (option loc) :=
  atomic (fun s =>
    if ok then
      let l := fresh (dom (heap s)) in
      Step (Some l) (with_heap (<[l := zeroed]> (heap s)) s)
    else Step None s).

(** [kfree]: NULL is ignored, freeing what is not allocated is invalid. *)
Definition kfree (p : option loc) : prog unit :=
  atomic (fun s =>
    match p with
    | None => Step tt s
    | Some l => match heap s !! l with
                | Some d => Step tt (with_freed (freed s ++ [d])
                                       (with_heap (delete l (heap s)) s))
                | None => Crash
                end
    end).

(** Modelled from the spec: the device-model collaborator
    ([usb_register_dev], [usb_deregister_dev], [usb_find_interface],
    [usb_set_intfdata], [usb_get_intfdata] of drivers/usb/core): "register
    a readable-only device node", "deregister it", and "a node-to-
    DeviceState association it can retrieve by the node's minor identity at
    open time". [usb_register_dev] is given the host's answer: the minor
    it assigns, or the error it reports. *)
Definition usb_register_dev (answer : Z + Z) : prog Z :=
  atomic (fun s =>
    match answer with
    | inl m => Step 0 (with_node (Some m) s)
    | inr e => Step e s
    end).

Definition usb_find_interface (minor : Z) : prog bool :=
  atomic (fun s =>
    match node s with
    | Some m => Step (m =? minor) s
    | None => Step false s
    end).

Definition usb_set_intfdata (p : option loc) : prog unit :=
  atomic (fun s => Step tt (with_intfdata p s)).

Definition usb_get_intfdata : prog (option loc) :=
  atomic (fun s => Step (intfdata s) s).

(** Modelled from the spec: the host's registration table, which "is owned
    by the host's device-model collaborator and is not specified further".
    Both kinds of host are covered. With [minor_rwsem = None], [open] and
    deregistration may overlap freely. With [minor_rwsem = Some n], the
    host holds the table for reading around the driver's [open] (see
    [usb_open]), [n] counting the readers, and [usb_deregister_dev] waits
    until no reader is left. *)
Definition down_read_minor : prog unit :=
  atomic (fun s =>
    match minor_rwsem s with
    | Some n => Step tt (with_minor_rwsem (Some (S n)) s)
    | None => Step tt s
    end).

Definition up_read_minor : prog unit :=
  atomic (fun s =>
    match minor_rwsem s with
    | Some n => Step tt (with_minor_rwsem (Some (Nat.pred n)) s)
    | None => Step tt s
    end).

Definition usb_deregister_dev : prog unit :=
  atomic (fun s =>
    match minor_rwsem s with
    | Some (S _) => Wait
    | _ => Step tt (with_node None s)
    end).

(** ** The Frame Decoder: the condition of [co2meter_handle_input] *)

(** The value of a [u8] once promoted to [int]. *)
Definition u8 (b : byte) : Z := Z.of_N (Byte.to_N b).

(** [buf[i]] in a buffer that [kzalloc] filled with zeroes. *)
Definition at_ (b : list byte) (i : nat) : byte := nth i b x00.

(** The operands are [u8], promoted to [int] before [+] and [==]: the sum
    is an [int] and is compared as such. *)
Definition frame_valid (retval transfer_size : Z) (b : list byte) : bool :=
  (retval =? 0) &&
  (transfer_size >=? 5) &&
  (u8 (at_ b 0) =? 0x50) &&
  (u8 (at_ b 0) + u8 (at_ b 1) + u8 (at_ b 2) =? u8 (at_ b 3)) &&
  (u8 (at_ b 4) =? 0x0d).

(** [(buf[1] * 256) + buf[2]], stored in a [u32]. *)
Definition frame_reading (b : list byte) : Z :=
  (u8 (at_ b 1) * 256 + u8 (at_ b 2)) mod 2 ^ 32.

(** ** The Poll Loop *)

(** What the environment does in one iteration: whether [kzalloc] has
    memory for the transfer buffer, and what [usb_bulk_msg] reports: its
    return value, the transfer size and the bytes received. *)
Record poll_io := {
  buf_alloc     : bool;
  retval        : Z;
  transfer_size : Z;
  received      : list byte
}.

(** The transfer buffer after the transfer: the bytes received on top of
    [USB_BUF_SIZE] zeroes. *)
Definition transfer_buffer (io : poll_io) : list byte :=
  take (Z.to_nat USB_BUF_SIZE)
       (received io ++ replicate (Z.to_nat USB_BUF_SIZE) x00).

(** [usb_bulk_msg] blocks and then reports; it does not touch the driver's
    state. *)
Definition usb_bulk_msg (io : poll_io) (ep_addr : Z) : prog (Z * Z * list byte) :=
  atomic (fun s => Step (retval io, transfer_size io, transfer_buffer io) s).

Definition co2meter_handle_input (dev : option loc) (io : poll_io) : prog unit :=
  mutex_lock dev ;;
  if negb (buf_alloc io) then
    _ <- load dev ;;
    dev_err "Could not allocate buffer for transfer" ;;
    schedule_work dev
    (* return *)
  else
    d <- load dev ;;
    let ep_addr := read_endpoint d in
    mutex_unlock dev ;;
    r <- usb_bulk_msg io ep_addr ;;
    let '(retval, transfer_size, b) := r in
    (if frame_valid retval transfer_size b then
       mutex_lock dev ;;
       update dev (set_ready 1) ;;
       update dev (set_co2_level (frame_reading b)) ;;
       mutex_unlock dev
     else Return tt) ;;
    (* kfree(buf) *)
    schedule_work dev.

(** The work queue runs a pending work item: it clears the pending bit,
    calls the work function and remembers that it is running meanwhile. *)
Definition claim_work (dev : loc) : prog bool :=
  atomic (fun s =>
    match heap s !! dev with
    | Some d =>
        if pending (work_data d) && negb (wq_running s) then
          Step true (with_wq_running true
                       (with_heap (<[dev := set_pending false d]> (heap s)) s))
        else Step false s
    | None => Step false s
    end).

Definition process_one_work (dev : loc) (io : poll_io) : prog unit :=
  claimed <- claim_work dev ;;
  if claimed : bool then
    co2meter_handle_input (Some dev) io ;;
    atomic (fun s => Step tt (with_wq_running false s))
  else Return tt.

(** The Poll Loop on its own: one iteration per environment answer. *)
Fixpoint poll_loop (dev : loc) (ios : list poll_io) : prog unit :=
  match ios with
  | [] => Return tt
  | io :: ios' => process_one_work dev io ;; poll_loop dev ios'
  end.

(** ** The Lifecycle Manager *)

Definition co2meter_delete (dev : option loc) : prog unit := kfree dev.

(** [usb_find_common_endpoints(alt, NULL, NULL, &dev->read_endpoint,
    NULL)]: the only slot the call fills is the fourth argument, the
    interrupt-IN one (bulk-in and bulk-out are the second and third).
    [int_in] is the transport's answer for that slot: the address of the
    first interrupt-IN endpoint of the current altsetting, if there is
    one. Without one the call fails with -ENXIO, whatever bulk endpoints
    the interface has. *)
Definition usb_find_common_endpoints (dev : option loc) (int_in : option Z)
  : prog Z :=
  match int_in with
  | Some a => update dev (set_read_endpoint a) ;; Return 0
  | None => Return (- ENXIO)
  end.

Definition INIT_WORK (dev : option loc) : prog unit :=
  update dev (set_pending false).

Definition co2meter_probe (alloc_ok : bool) (int_in : option Z)
    (registration : Z + Z) : prog Z :=
  dev <- kzalloc_dev alloc_ok ;;
  match dev with
  | None => Return (- ENOMEM)
  | Some _ =>
      mutex_init dev ;;
      update dev (set_ready 0) ;;
      retval <- usb_find_common_endpoints dev int_in ;;
      if negb (retval =? 0) then
        dev_err "Could not find bulk-in endpoint" ;;
        co2meter_delete dev ;;
        Return retval
      else
        result <- usb_register_dev registration ;;
        if negb (result =? 0) then
          dev_err "Unable to allocate minor number" ;;
          co2meter_delete dev ;;
          Return result
        else
          usb_set_intfdata dev ;;
          INIT_WORK dev ;;
          schedule_work dev ;;
          Return 0
  end.

Definition co2meter_disconnect : prog unit :=
  dev <- usb_get_intfdata ;;
  cancel_work_sync dev ;;
  mutex_lock dev ;;
  usb_deregister_dev ;;
  dev <- usb_get_intfdata ;;
  co2meter_delete dev.

(** ** The Consumer Session *)

(** The character of a decimal digit. *)
Definition digit (d : Z) : byte :=
  match Byte.of_N (Z.to_N (48 + d)) with
  | Some b => b
  | None => x00
  end.

(** The digit loop of a decimal conversion: the last digit first, in
    front of what is already there, until the quotient is zero. [n] bounds
    the digits after the first one. *)
Fixpoint put_dec (n : nat) (v : Z) (acc : list byte) : list byte :=
  let acc' := digit (v mod 10) :: acc in
  match n with
  | O => acc'
  | S n' => if v / 10 =? 0 then acc' else put_dec n' (v / 10) acc'
  end.

(** Modelled from the spec: the ["%u\n"] conversion of [scnprintf]
    (lib/vsprintf.c): "format cached_reading as ASCII decimal followed by
    a newline". The argument is an [unsigned int], which has at most ten
    digits. *)
Definition format_u_nl (v : Z) : list byte :=
  put_dec 9 (v mod 2 ^ 32) [] ++ [x0a].

(** Modelled from the spec: [scnprintf] (lib/vsprintf.c) on a buffer of
    [size] bytes ("small fixed-capacity byte buffer"): it stores what fits
    with a terminating NUL and returns the number of characters stored,
    the NUL not counted. The result is the buffer's new content and that
    number. *)
Definition scnprintf (old : list byte) (size : Z) (text : list byte)
  : list byte * Z :=
  let n := Z.min (Z.of_nat (List.length text)) (size - 1) in
  let stored := take (Z.to_nat n) text ++ [x00] in
  (stored ++ drop (List.length stored) old, n).

(** Modelled from the spec: [simple_read_from_buffer] (fs/libfs.c),
    "standard bounded-copy semantics (return 0 once offset reaches
    end-of-buffer, signalling end of data)". The caller's buffer is
    writable, so everything asked for is copied. The result is the return
    value, the bytes copied to the caller and the new offset. *)
Definition simple_read_from_buffer (count ppos : Z) (from : list byte)
    (available : Z) : Z * list byte * Z :=
  if ppos <? 0 then (- EINVAL, [], ppos)
  else if (ppos >=? available) || (count =? 0) then (0, [], ppos)
  else
    let count := if count >? available - ppos then available - ppos else count in
    (count, take (Z.to_nat count) (drop (Z.to_nat ppos) from), ppos + count).

(** [kzalloc(sizeof(struct co2meter_file_data))]. *)
Definition kzalloc_file_data (ok : bool) : prog (option co2meter_file_data) :=
  atomic (fun s =>
    if ok then
      Step (Some {| buf := replicate (Z.to_nat CO2METER_DATA_SIZE) x00;
                    buf_size := 0 |}) s
    else Step None s).

(** [file_data->buf_size = scnprintf(file_data->buf, CO2METER_DATA_SIZE,
    "%u\n", v)]: both sides go through [file_data]. *)
Definition format_file_data (file_data : option co2meter_file_data) (v : Z)
  : prog co2meter_file_data :=
  atomic (fun s =>
    match file_data with
    | None => Crash
    | Some fd =>
        let '(b, n) := scnprintf (buf fd) CO2METER_DATA_SIZE (format_u_nl v) in
        Step {| buf := b; buf_size := n |} s
    end).

Definition set_private_data (file : nat) (fd : co2meter_file_data) : prog unit :=
  atomic (fun s => Step tt (with_private_data (<[file := fd]> (private_data s)) s)).

Definition get_private_data (file : nat) : prog (option co2meter_file_data) :=
  atomic (fun s => Step (private_data s !! file) s).

(** [minor] is [iminor(inode)], [file] names the [struct file]; [alloc_ok]
    tells whether [kzalloc] has memory for the session. *)
Definition co2meter_open (minor : Z) (file : nat) (alloc_ok : bool) : prog Z :=
  interface <- usb_find_interface minor ;;
  if negb interface then Return (- ENODEV)
  else
    dev <- usb_get_intfdata ;;
    mutex_lock dev ;;
    d <- load dev ;;
    if ready d =? 0 then
      mutex_unlock dev ;;
      Return (- ENODEV)
    else
      file_data <- kzalloc_file_data alloc_ok ;;
      d <- load dev ;;
      fd <- format_file_data file_data (co2_level d) ;;
      set_private_data file fd ;;
      mutex_unlock dev ;;
      Return 0.

(** The result is the return value, the bytes copied to the caller's
    buffer and the new [*ppos]. *)
Definition co2meter_read (file : nat) (count ppos : Z)
  : prog (Z * list byte * Z) :=
  pd <- get_private_data file ;;
  match pd with
  | None => Return (- ENODEV, [], ppos)
  | Some file_data =>
      Return (simple_read_from_buffer count ppos (buf file_data)
                                      (buf_size file_data))
  end.

(** [kfree] of a session: the memory goes back to the allocator. *)
Definition kfree_file_data (fd : co2meter_file_data) : prog unit :=
  atomic (fun s => Step tt (with_freed_sessions (freed_sessions s ++ [fd]) s)).

(** The session is freed when there is one; [file->private_data] itself is
    not written, so it goes on naming the freed session. *)
Definition co2meter_release (file : nat) : prog Z :=
  pd <- get_private_data file ;;
  match pd with
  | Some file_data =>
      kfree_file_data file_data ;;
      Return 0
  | None => Return 0
  end.

(** The host's [open] of a node: the driver's [open] with the minor table
    held for reading. *)
Definition usb_open (minor : Z) (file : nat) (alloc_ok : bool) : prog Z :=
  down_read_minor ;;
  err <- co2meter_open minor file alloc_ok ;;
  up_read_minor ;;
  Return err.

(** ** Entry points running side by side *)

Inductive tstate (A : Type) : Type :=
| Running (p : prog A)
| Crashed.
Arguments Running {A} p.
Arguments Crashed {A}.

(** One step of a thread, when it has one to take now. *)
Definition advance {A : Type} (t : tstate A) (s : kstate)
  : option (tstate A * kstate) :=
  match t with
  | Running (Act a k) =>
      match a s with
      | Step x s' => Some (Running (k x), s')
      | Wait => None
      | Crash => Some (Crashed, s)
      end
  | _ => None
  end.

(** A consumer opening the node, the host detaching the device, and the
    work queue running the Poll Loop, over one kernel state. *)
Record sys := {
  mem      : kstate;
  opener   : tstate Z;
  detacher : tstate unit;
  worker   : tstate unit
}.

Inductive tid := T_open | T_detach | T_work.

Definition step (i : tid) (c : sys) : option sys :=
  match i with
  | T_open =>
      match advance (opener c) (mem c) with
      | Some (t, s) => Some {| mem := s; opener := t;
                               detacher := detacher c; worker := worker c |}
      | None => None
      end
  | T_detach =>
      match advance (detacher c) (mem c) with
      | Some (t, s) => Some {| mem := s; opener := opener c;
                               detacher := t; worker := worker c |}
      | None => None
      end
  | T_work =>
      match advance (worker c) (mem c) with
      | Some (t, s) => Some {| mem := s; opener := opener c;
                               detacher := detacher c; worker := t |}
      | None => None
      end
  end.

(** A schedule names the thread that moves next; it is refused when that
    thread cannot move. *)
Fixpoint exec (sched : list tid) (c : sys) : option sys :=
  match sched with
  | [] => Some c
  | i :: sched' =>
      match step i c with
      | Some c' => exec sched' c'
      | None => None
      end
  end.

(** No thread can move. *)
Definition stuck (c : sys) : bool :=
  match step T_open c, step T_detach c, step T_work c with
  | None, None, None => true
  | _, _, _ => false
  end.

(** Where a thread stands: it has returned, it has dereferenced an invalid
    pointer, or it is still inside its call. *)
Inductive status (A : Type) : Type :=
| Returned (a : A)
| Faulted
| Inside.
Arguments Returned {A} a.
Arguments Faulted {A}.
Arguments Inside {A}.

Definition status_of {A : Type} (t : tstate A) : status A :=
  match t with
  | Running (Return a) => Returned a
  | Running (Act _ _) => Inside
  | Crashed => Faulted
  end.

(** What can be seen of a system: the kernel state, where each thread
    stands, and whether any of them can still move. *)
Record view := {
  v_mem    : kstate;
  v_open   : status Z;
  v_detach : status unit;
  v_work   : status unit;
  v_stuck  : bool
}.

Definition observe (c : sys) : view :=
  {| v_mem := mem c; v_open := status_of (opener c);
     v_detach := status_of (detacher c); v_work := status_of (worker c);
     v_stuck := stuck c |}.

(** The view at the end of a schedule. *)
Definition play (sched : list tid) (c : sys) : option view :=
  match exec sched c with
  | Some c' => Some (observe c')
  | None => None
  end.

(** ** Properties of programs *)

(** Every step of [p] relates the state before it to the state after. *)
Fixpoint preserves {A : Type} (R : kstate -> kstate -> Prop) (p : prog A)
  : Prop :=
  match p with
  | Return _ => True
  | Act a k =>
      (forall s x s', a s = Step x s' -> R s s') /\
      (forall x, preserves R (k x))
  end.

(** The sessions are the same. *)
Definition same_sessions (s s' : kstate) : Prop :=
  private_data s' = private_data s.

(** Every live device keeps its reading: [ready] and [co2_level]. *)
Definition same_readings (s s' : kstate) : Prop :=
  forall l d, heap s !! l = Some d ->
    exists d', heap s' !! l = Some d' /\
               ready d' = ready d /\ co2_level d' = co2_level d.

(** The valid bytes of a session: [formatted_text]. *)
Definition formatted_text (fd : co2meter_file_data) : list byte :=
  take (Z.to_nat (buf_size fd)) (buf fd).

(** The number that a string of decimal digits denotes, [acc] being the
    value of the digits read so far. *)
Fixpoint dec_value (acc : Z) (ds : list byte) : Z :=
  match ds with
  | [] => acc
  | c :: ds' => dec_value (acc * 10 + (u8 c - 48)) ds'
  end.

Definition is_digit (c : byte) : Prop := 48 <= u8 c <= 57.

(** [ds] is the decimal rendering of [v]: digits only, denoting [v], and
    as many as [v] has decimal digits (one for 0, and otherwise the [n]
    with [10 ^ (n - 1) <= v < 10 ^ n]). *)
Definition decimal_of (v : Z) (ds : list byte) : Prop :=
  Forall is_digit ds /\
  dec_value 0 ds = v /\
  (v = 0 -> List.length ds = 1%nat) /\
  (0 < v -> 10 ^ (Z.of_nat (List.length ds) - 1) <= v
            < 10 ^ Z.of_nat (List.length ds)).

(** The session that [co2meter_open] builds for the reading [v]. *)
Definition session_of (v : Z) : co2meter_file_data :=
  let '(b, n) := scnprintf (replicate (Z.to_nat CO2METER_DATA_SIZE) x00)
                           CO2METER_DATA_SIZE (format_u_nl v) in
  {| buf := b; buf_size := n |}.

(** ** Fixtures *)

(** Before the device is plugged in, on a host that does not serialise
    [open] with deregistration. *)
Definition boot : kstate :=
  {| heap := ∅; node := None; intfdata := None; wq_running := false;
     private_data := ∅; klog := []; freed := []; freed_sessions := [];
     minor_rwsem := None |}.

(** After a successful attach: interrupt-IN endpoint 0x81, and the first minor
    of the driver's range. *)
Definition attached : kstate :=
  final (run (co2meter_probe true (Some 0x81) (inl CO2MON_MINOR_BASE)) boot).

(** The object that [co2meter_probe] allocated in [attached]. *)
Definition the_dev : loc := 1%positive.

(** A poll iteration in which the transfer delivers [bytes]. *)
Definition delivers (bytes : list byte) : poll_io :=
  {| buf_alloc := true; retval := 0;
     transfer_size := Z.of_nat (List.length bytes); received := bytes |}.

(** A poll iteration in which [kzalloc] has no memory for the buffer. *)
Definition no_memory : poll_io :=
  {| buf_alloc := false; retval := 0; transfer_size := 0; received := [] |}.

(** 400 ppm with its checksum 0x50 + 0x01 + 0x90 = 0xe1. *)
Definition frame_400 : list byte := [x50; x01; x90; xe1; x0d].

(** The same reading with 0x91 in the checksum byte. *)
Definition frame_400_0x91 : list byte := [x50; x01; x90; x91; x0d].

(** 1000 ppm: 0x50 + 0x03 + 0xe8 = 0x13b, whose low byte is 0x3b. *)
Definition frame_1000_low_byte : list byte := [x50; x03; xe8; x3b; x0d].

(** 512 ppm: 0x50 + 0x02 + 0x00 = 0x52. *)
Definition frame_512 : list byte := [x50; x02; x00; x52; x0d].

(** A transfer that times out (-ETIMEDOUT), a transfer of two bytes, and a
    frame with a wrong terminator. *)
Definition noise : list poll_io :=
  [ {| buf_alloc := true; retval := -110; transfer_size := 0; received := [] |};
    delivers [x50; x02];
    delivers [x50; x02; x00; x52; x0a] ].

(** Attached, and one valid frame has been decoded: reading 400. *)
Definition warmed : kstate :=
  final (run (poll_loop the_dev [delivers frame_400]) attached).

(** [warmed] on a host that serialises [open] with deregistration. *)
Definition warmed_serialised : kstate := with_minor_rwsem (Some 0%nat) warmed.

(** A consumer in [open] while the host detaches the device; the work
    queue is idle. *)
Definition race (s : kstate) (open : prog Z) : sys :=
  {| mem := s; opener := Running open;
     detacher := Running co2meter_disconnect;
     worker := Running (Return tt) |}.

(** ** Further properties *)

(** The two fields that carry the reading hold what the driver can have
    written there: [ready] is 0 or 1, and [co2_level] is within what an
    accepted frame can encode. *)
Definition dev_wf (d : usb_co2meter) : Prop :=
  (ready d = 0 \/ ready d = 1) /\ 0 <= co2_level d <= 44800.

Definition all_wf (s : kstate) : Prop :=
  forall l d, heap s !! l = Some d -> dev_wf d.

Definition keeps_wf (s s' : kstate) : Prop := all_wf s -> all_wf s'.

(** The same device objects are allocated, the same node is registered,
    the interface points to the same object and nothing more was freed. *)
Definition same_lifecycle (s s' : kstate) : Prop :=
  dom (heap s') = dom (heap s) /\ node s' = node s /\
  intfdata s' = intfdata s /\ freed s' = freed s.

(** The frame of a poll iteration passes the test of
    [co2meter_handle_input]. *)
Definition accepted (io : poll_io) : bool :=
  frame_valid (retval io) (transfer_size io) (transfer_buffer io).

(** The pair ([ready], [co2_level]) after the iterations [ios], starting
    from [cur]: that of the last accepted frame, if there is one. *)
Fixpoint latest (ios : list poll_io) (cur : Z * Z) : Z * Z :=
  match ios with
  | [] => cur
  | io :: ios' =>
      latest ios' (if accepted io
                   then (1, frame_reading (transfer_buffer io))
                   else cur)
  end.

(** The object that [co2meter_probe] leaves behind when it succeeds. *)
Definition probed (ep_addr : Z) : usb_co2meter :=
  {| lock := false; work_data := {| pending := true |};
     read_endpoint := ep_addr; co2_level := 0; ready := 0 |}.

(** [n] steps of a thread, each of which it can take. *)
Fixpoint advance_n {A : Type} (n : nat) (t : tstate A) (s : kstate)
  : option (tstate A * kstate) :=
  match n with
  | O => Some (t, s)
  | S n' =>
      match advance t s with
      | Some (t', s') => advance_n n' t' s'
      | None => None
      end
  end.

(** * Proofs *)

(** ** Bytes *)

Lemma u8_range (b : byte) : 0 <= u8 b <= 255.
Proof.
  unfold u8. pose proof (Byte.to_N_bounded b). lia.
Qed.

(** ** The Frame Decoder *)

Lemma frame_valid_spec (r t : Z) (b : list byte) :
  frame_valid r t b = true <->
  r = 0 /\ 5 <= t /\ u8 (at_ b 0) = 0x50 /\
  u8 (at_ b 0) + u8 (at_ b 1) + u8 (at_ b 2) = u8 (at_ b 3) /\
  u8 (at_ b 4) = 0x0d.
Proof.
  unfold frame_valid.
  rewrite !andb_true_iff, !Z.eqb_eq, Z.geb_le. tauto.
Qed.

(** C3: the frame 50 03 e8 3b 0d (1000 ppm) has header, terminator and
    length right, and its checksum byte is the 8-bit sum of the first three
    bytes, (0x50 + 0x03 + 0xe8) mod 256 = 0x3b, so the claim has it
    accepted; the decoder rejects it. *)
Lemma C3_low_byte_sum_rejected :
  let b := frame_1000_low_byte in
  u8 (at_ b 0) = 0x50 /\ u8 (at_ b 4) = 0x0d /\
  (u8 (at_ b 0) + u8 (at_ b 1) + u8 (at_ b 2)) mod 256 = u8 (at_ b 3) /\
  frame_valid 0 5 b = false.
Proof. vm_compute. tauto. Qed.

(** What the test of the code amounts to: for a transfer that succeeded
    with at least 5 bytes, byte[0] = 0x50 and byte[4] = 0x0d, the frame is
    accepted exactly when byte[0] + byte[1] + byte[2], summed as integers
    without wrap-around, equals byte[3]; so whatever the checksum byte, no
    frame whose three bytes sum to more than 255 is accepted. *)
Lemma checksum_is_integer_sum (r t : Z) (b : list byte) :
  r = 0 -> 5 <= t -> u8 (at_ b 0) = 0x50 -> u8 (at_ b 4) = 0x0d ->
  (frame_valid r t b = true <->
   u8 (at_ b 0) + u8 (at_ b 1) + u8 (at_ b 2) = u8 (at_ b 3)) /\
  (255 < u8 (at_ b 0) + u8 (at_ b 1) + u8 (at_ b 2) ->
   frame_valid r t b = false).
Proof.
  intros Hr Ht H0 H4. split.
  - rewrite frame_valid_spec. tauto.
  - intros Hbig. apply not_true_is_false. rewrite frame_valid_spec.
    pose proof (u8_range (at_ b 3)). lia.
Qed.

(** ** Running programs *)

Lemma run_bind {A B : Type} (p : prog A) (f : A -> prog B) (s : kstate) :
  run (bind p f) s =
  match run p s with
  | Ret a s' => run (f a) s'
  | Sleep s' => Sleep s'
  | Oops s' => Oops s'
  end.
Proof.
  revert s. induction p as [a | X a k IH]; intros s; simpl; [reflexivity |].
  destruct (a s) as [x s' | |]; [apply IH | reflexivity | reflexivity].
Qed.

Lemma with_heap_same (s : kstate) : with_heap (heap s) s = s.
Proof. destruct s; reflexivity. Qed.

Lemma unlock_lock (d : usb_co2meter) :
  lock d = false -> set_lock false (set_lock true d) = d.
Proof. destruct d; simpl; intros ->; reflexivity. Qed.

Section Live.
(** A state in which [l] is a live device object with content [d]. *)
Variables (s : kstate) (l : loc) (d : usb_co2meter).
Hypothesis Hlive : heap s !! l = Some d.

Lemma run_load : run (load (Some l)) s = Ret d s.
Proof using Hlive. simpl. rewrite Hlive. reflexivity. Qed.

Lemma run_update (f : usb_co2meter -> usb_co2meter) :
  run (update (Some l) f) s = Ret tt (with_heap (<[l := f d]> (heap s)) s).
Proof using Hlive. simpl. rewrite Hlive. reflexivity. Qed.

Lemma run_mutex_lock :
  run (mutex_lock (Some l)) s =
  if lock d then Sleep s
  else Ret tt (with_heap (<[l := set_lock true d]> (heap s)) s).
Proof using Hlive. simpl. rewrite Hlive. destruct (lock d); reflexivity. Qed.

Lemma run_mutex_unlock :
  run (mutex_unlock (Some l)) s =
  Ret tt (with_heap (<[l := set_lock false d]> (heap s)) s).
Proof using Hlive. apply run_update. Qed.

Lemma run_schedule_work :
  run (schedule_work (Some l)) s =
  Ret tt (with_heap (<[l := set_pending true d]> (heap s)) s).
Proof using Hlive. apply run_update. Qed.
End Live.

Lemma live_after (s : kstate) (l : loc) (d : usb_co2meter) :
  heap (with_heap (<[l := d]> (heap s)) s) !! l = Some d.
Proof. simpl. apply lookup_insert_eq. Qed.

Lemma store_store (s : kstate) (l : loc) (d d' : usb_co2meter) :
  with_heap (<[l := d']> (heap (with_heap (<[l := d]> (heap s)) s)))
            (with_heap (<[l := d]> (heap s)) s)
  = with_heap (<[l := d']> (heap s)) s.
Proof. simpl. unfold with_heap; simpl. rewrite insert_insert_eq. reflexivity. Qed.

Lemma store_same (s : kstate) (l : loc) (d : usb_co2meter) :
  heap s !! l = Some d -> with_heap (<[l := d]> (heap s)) s = s.
Proof. intros H. rewrite (insert_id _ _ _ H). apply with_heap_same. Qed.

Lemma run_usb_bulk_msg (io : poll_io) (ep : Z) (s : kstate) :
  run (usb_bulk_msg io ep) s =
  Ret (retval io, transfer_size io, transfer_buffer io) s.
Proof. reflexivity. Qed.

Lemma run_Return {A : Type} (a : A) (s : kstate) : run (Return a) s = Ret a s.
Proof. reflexivity. Qed.

Lemma run_usb_find_interface (minor : Z) (s : kstate) :
  run (usb_find_interface minor) s =
  Ret (match node s with Some m => m =? minor | None => false end) s.
Proof. simpl. destruct (node s); reflexivity. Qed.

Lemma run_usb_get_intfdata (s : kstate) :
  run usb_get_intfdata s = Ret (intfdata s) s.
Proof. reflexivity. Qed.

Lemma run_kzalloc_file_data (ok : bool) (s : kstate) :
  run (kzalloc_file_data ok) s =
  Ret (if ok then Some {| buf := replicate (Z.to_nat CO2METER_DATA_SIZE) x00;
                          buf_size := 0 |}
       else None) s.
Proof. destruct ok; reflexivity. Qed.

Lemma run_format_file_data (fd : co2meter_file_data) (v : Z) (s : kstate) :
  run (format_file_data (Some fd) v) s =
  Ret (let '(b, n) := scnprintf (buf fd) CO2METER_DATA_SIZE (format_u_nl v) in
       {| buf := b; buf_size := n |}) s.
Proof.
  unfold format_file_data, atomic, run.
  destruct (scnprintf _ _ _); reflexivity.
Qed.

Lemma run_format_file_data_null (v : Z) (s : kstate) :
  run (format_file_data None v) s = Oops s.
Proof. reflexivity. Qed.

Lemma run_set_private_data (file : nat) (fd : co2meter_file_data) (s : kstate) :
  run (set_private_data file fd) s =
  Ret tt (with_private_data (<[file := fd]> (private_data s)) s).
Proof. reflexivity. Qed.

Lemma run_get_private_data (file : nat) (s : kstate) :
  run (get_private_data file) s = Ret (private_data s !! file) s.
Proof. reflexivity. Qed.

(** The device object of a state that earlier steps have written. *)
Ltac solve_live :=
  first [ eassumption
        | apply live_after
        | simpl; first [eassumption | apply lookup_insert_eq] ].

(** Evaluate the next primitive of a program run on a state whose device
    object is known. *)
Ltac run_prim :=
  first
    [ rewrite run_bind
    | erewrite run_load by solve_live
    | erewrite run_mutex_lock by solve_live
    | erewrite run_mutex_unlock by solve_live
    | erewrite run_schedule_work by solve_live
    | erewrite run_update by solve_live
    | rewrite run_usb_bulk_msg
    | rewrite run_usb_find_interface
    | rewrite run_usb_get_intfdata
    | rewrite run_kzalloc_file_data
    | rewrite run_format_file_data
    | rewrite run_format_file_data_null
    | rewrite run_set_private_data
    | rewrite run_get_private_data
    | rewrite run_Return
    | rewrite store_store ];
  cbv beta iota.

(** ** The Poll Loop *)

(** An iteration that finds the guard free and gets its buffer, and whose
    frame is not valid, only queues the next iteration. *)
Lemma handle_input_rejects (s : kstate) (l : loc) (d : usb_co2meter)
    (io : poll_io) :
  heap s !! l = Some d -> lock d = false -> buf_alloc io = true ->
  frame_valid (retval io) (transfer_size io) (transfer_buffer io) = false ->
  run (co2meter_handle_input (Some l) io) s =
  Ret tt (with_heap (<[l := set_pending true d]> (heap s)) s).
Proof.
  intros Hl Hfree Hbuf Hbad. unfold co2meter_handle_input.
  rewrite Hbuf. simpl negb. cbv iota.
  repeat run_prim. rewrite Hfree.
  repeat run_prim. rewrite Hbad.
  repeat run_prim.
  rewrite (unlock_lock d Hfree). reflexivity.
Qed.

(** An iteration that finds the guard free and gets its buffer, and whose
    frame is valid, stores the reading and queues the next iteration. *)
Lemma handle_input_accepts (s : kstate) (l : loc) (d : usb_co2meter)
    (io : poll_io) :
  heap s !! l = Some d -> lock d = false -> buf_alloc io = true ->
  frame_valid (retval io) (transfer_size io) (transfer_buffer io) = true ->
  run (co2meter_handle_input (Some l) io) s =
  Ret tt (with_heap
            (<[l := set_pending true
                      (set_co2_level (frame_reading (transfer_buffer io))
                                     (set_ready 1 d))]> (heap s)) s).
Proof.
  intros Hl Hfree Hbuf Hok. unfold co2meter_handle_input.
  rewrite Hbuf. simpl negb. cbv iota.
  repeat run_prim. rewrite Hfree.
  repeat run_prim. rewrite Hok.
  repeat run_prim. rewrite (unlock_lock d Hfree), Hfree.
  repeat run_prim.
  destruct d; simpl in *; subst; reflexivity.
Qed.

(** An iteration that finds the guard free and gets no buffer returns
    with the guard held. *)
Lemma handle_input_no_memory (s : kstate) (l : loc) (d : usb_co2meter)
    (io : poll_io) :
  heap s !! l = Some d -> lock d = false -> buf_alloc io = false ->
  run (co2meter_handle_input (Some l) io) s =
  Ret tt (with_heap (<[l := set_pending true (set_lock true d)]> (heap s))
            (with_klog (klog s ++ ["Could not allocate buffer for transfer"%string]) s)).
Proof.
  intros Hl Hfree Hbuf. unfold co2meter_handle_input.
  rewrite Hbuf. simpl negb. cbv iota.
  repeat run_prim. rewrite Hfree.
  repeat run_prim. simpl. rewrite lookup_insert_eq, insert_insert_eq.
  reflexivity.
Qed.

(** An iteration that finds the guard held does not get past
    [mutex_lock]. *)
Lemma handle_input_guard_held (s : kstate) (l : loc) (d : usb_co2meter)
    (io : poll_io) :
  heap s !! l = Some d -> lock d = true ->
  run (co2meter_handle_input (Some l) io) s = Sleep s.
Proof.
  intros Hl Hheld. unfold co2meter_handle_input.
  repeat run_prim. rewrite Hheld. reflexivity.
Qed.

(** The work queue starts an iteration when the work item is pending and
    not running. *)
Lemma run_process_one_work (s : kstate) (l : loc) (d : usb_co2meter)
    (io : poll_io) :
  heap s !! l = Some d -> pending (work_data d) = true ->
  wq_running s = false ->
  run (process_one_work l io) s =
  match run (co2meter_handle_input (Some l) io)
            (with_wq_running true
               (with_heap (<[l := set_pending false d]> (heap s)) s)) with
  | Ret _ s' => Ret tt (with_wq_running false s')
  | Sleep s' => Sleep s'
  | Oops s' => Oops s'
  end.
Proof.
  intros Hl Hp Hr. unfold process_one_work.
  rewrite run_bind.
  assert (Hclaim : run (claim_work l) s =
                   Ret true (with_wq_running true
                     (with_heap (<[l := set_pending false d]> (heap s)) s))).
  { simpl. rewrite Hl, Hp, Hr. reflexivity. }
  rewrite Hclaim, run_bind.
  destruct (run (co2meter_handle_input (Some l) io) _); reflexivity.
Qed.

(** C5: a poll iteration that got its buffer and whose transfer fails, is
    shorter than 5 bytes, or returns a buffer with byte[0] other than
    0x50, a checksum mismatch (of the sum, or already of the sum's low
    byte) or byte[4] other than 0x0d, returns normally with [ready] and
    [co2_level] as they were, the guard released, nothing logged and the
    next iteration queued. *)
Theorem C5_rejected_frame_changes_nothing (s : kstate) (l : loc)
    (d : usb_co2meter) (io : poll_io) :
  heap s !! l = Some d -> lock d = false -> buf_alloc io = true ->
  (retval io <> 0 \/
   transfer_size io < 5 \/
   u8 (at_ (transfer_buffer io) 0) <> 0x50 \/
   u8 (at_ (transfer_buffer io) 0) + u8 (at_ (transfer_buffer io) 1)
     + u8 (at_ (transfer_buffer io) 2) <> u8 (at_ (transfer_buffer io) 3) \/
   (u8 (at_ (transfer_buffer io) 0) + u8 (at_ (transfer_buffer io) 1)
     + u8 (at_ (transfer_buffer io) 2)) mod 256
     <> u8 (at_ (transfer_buffer io) 3) \/
   u8 (at_ (transfer_buffer io) 4) <> 0x0d) ->
  exists s' d',
    run (co2meter_handle_input (Some l) io) s = Ret tt s' /\
    heap s' !! l = Some d' /\
    ready d' = ready d /\ co2_level d' = co2_level d /\
    lock d' = false /\ pending (work_data d') = true /\
    klog s' = klog s /\ private_data s' = private_data s.
Proof.
  intros Hl Hfree Hbuf Hbad.
  assert (Hrej : frame_valid (retval io) (transfer_size io)
                             (transfer_buffer io) = false).
  { apply not_true_is_false. rewrite frame_valid_spec.
    intros (Hr & Ht & H0 & Hsum & H4).
    destruct Hbad as [H | [H | [H | [H | [H | H]]]]]; try (contradiction || lia).
    apply H. rewrite Hsum. apply Z.mod_small.
    pose proof (u8_range (at_ (transfer_buffer io) 3)). lia. }
  exists (with_heap (<[l := set_pending true d]> (heap s)) s),
         (set_pending true d).
  split; [apply handle_input_rejects; assumption |].
  split; [apply live_after |].
  simpl. repeat split; assumption || reflexivity.
Qed.

Lemma C5_rejected_frame_changes_nothing_witness :
  exists s' d',
    run (co2meter_handle_input (Some the_dev) (delivers frame_400_0x91)) warmed
    = Ret tt s' /\
    heap s' !! the_dev = Some d' /\
    ready d' = 1 /\ co2_level d' = 400 /\
    lock d' = false /\ pending (work_data d') = true /\
    klog s' = klog warmed /\ private_data s' = private_data warmed.
Proof.
  apply (C5_rejected_frame_changes_nothing warmed the_dev
           {| lock := false; work_data := {| pending := true |};
              read_endpoint := 0x81; co2_level := 400; ready := 1 |}
           (delivers frame_400_0x91)).
  - reflexivity.
  - reflexivity.
  - reflexivity.
  - right. right. right. left. vm_compute. discriminate.
Defined.

(** C4, as stated, fails: 0x50 + 0x01 + 0x90 is 0xe1, not 0x91, so the
    frame 50 01 90 91 0d is rejected, and after the Poll Loop has
    processed it on a freshly attached device [ready] is still 0 and the
    reading is not 400. *)
Lemma C4_frame_with_0x91_rejected :
  frame_valid 0 5 (transfer_buffer (delivers frame_400_0x91)) = false /\
  exists s' d',
    run (process_one_work the_dev (delivers frame_400_0x91)) attached
    = Ret tt s' /\
    heap s' !! the_dev = Some d' /\ ready d' = 0 /\ co2_level d' <> 400.
Proof.
  split; [reflexivity |].
  eexists. eexists.
  split; [vm_compute; reflexivity |].
  split; [vm_compute; reflexivity |].
  split; [reflexivity | discriminate].
Qed.

(** C4, amended: the Frame Decoder accepts the frame 50 01 90 e1 0d (with
    transfer length at least 5, whatever follows it in the buffer) and
    extracts reading 400; after a poll iteration has processed this frame,
    [ready] is 1 and [co2_level] is 400. *)
Theorem C4_frame_400_accepted (s : kstate) (l : loc) (d : usb_co2meter)
    (t : Z) (rest : list byte) :
  heap s !! l = Some d -> lock d = false -> 5 <= t ->
  let io := {| buf_alloc := true; retval := 0; transfer_size := t;
               received := frame_400 ++ rest |} in
  frame_valid 0 t (transfer_buffer io) = true /\
  frame_reading (transfer_buffer io) = 400 /\
  exists s' d',
    run (co2meter_handle_input (Some l) io) s = Ret tt s' /\
    heap s' !! l = Some d' /\ ready d' = 1 /\ co2_level d' = 400.
Proof.
  intros Hl Hfree Ht io.
  assert (Hok : frame_valid 0 t (transfer_buffer io) = true).
  { apply frame_valid_spec. repeat split; (assumption || reflexivity). }
  assert (Hval : frame_reading (transfer_buffer io) = 400) by reflexivity.
  split; [exact Hok |]. split; [exact Hval |].
  eexists. eexists.
  split; [apply (handle_input_accepts s l d io Hl Hfree eq_refl Hok) |].
  split; [apply live_after |].
  rewrite Hval. split; reflexivity.
Qed.

Lemma C4_frame_400_accepted_witness :
  let io := {| buf_alloc := true; retval := 0; transfer_size := 5;
               received := frame_400 ++ [] |} in
  frame_valid 0 5 (transfer_buffer io) = true /\
  frame_reading (transfer_buffer io) = 400 /\
  exists s' d',
    run (co2meter_handle_input (Some the_dev) io) attached = Ret tt s' /\
    heap s' !! the_dev = Some d' /\ ready d' = 1 /\ co2_level d' = 400.
Proof.
  apply (C4_frame_400_accepted attached the_dev
           {| lock := false; work_data := {| pending := true |};
              read_endpoint := 0x81; co2_level := 0; ready := 0 |} 5 []).
  - reflexivity.
  - reflexivity.
  - lia.
Defined.

(** ** The Consumer Session: open *)

Section Open.
Variables (s : kstate) (minor : Z) (file : nat) (alloc_ok : bool).

(** No node under the requested minor. *)
Lemma open_no_node :
  node s <> Some minor ->
  run (co2meter_open minor file alloc_ok) s = Ret (- ENODEV) s.
Proof.
  intros Hnode. unfold co2meter_open. repeat run_prim.
  destruct (node s) as [m |] eqn:E; [| reflexivity].
  destruct (Z.eqb_spec m minor) as [-> | Hne]; [congruence | reflexivity].
Qed.

Variables (l : loc) (d : usb_co2meter).
Hypothesis Hnode : node s = Some minor.
Hypothesis Hdata : intfdata s = Some l.
Hypothesis Hlive : heap s !! l = Some d.

(** The guard is held: [open] does not get past [mutex_lock]. *)
Lemma open_guard_held :
  lock d = true ->
  run (co2meter_open minor file alloc_ok) s = Sleep s.
Proof using Hnode Hdata Hlive.
  intros Hheld. unfold co2meter_open. repeat run_prim.
  rewrite Hnode, Z.eqb_refl. simpl negb. cbv iota.
  repeat run_prim. rewrite Hdata. repeat run_prim.
  rewrite Hheld. reflexivity.
Qed.

(** No reading yet. *)
Lemma open_not_ready :
  lock d = false -> ready d = 0 ->
  run (co2meter_open minor file alloc_ok) s = Ret (- ENODEV) s.
Proof using Hnode Hdata Hlive.
  intros Hfree Hready. unfold co2meter_open. repeat run_prim.
  rewrite Hnode, Z.eqb_refl. simpl negb. cbv iota.
  repeat run_prim. rewrite Hdata. repeat run_prim.
  rewrite Hfree. repeat run_prim.
  change (ready (set_lock true d)) with (ready d). rewrite Hready.
  simpl Z.eqb. cbv iota. repeat run_prim.
  rewrite (unlock_lock d Hfree), (store_same s l d Hlive). reflexivity.
Qed.
End Open.

Section OpenReady.
Variables (s : kstate) (minor : Z) (file : nat).
Variables (l : loc) (d : usb_co2meter).
Hypothesis Hnode : node s = Some minor.
Hypothesis Hdata : intfdata s = Some l.
Hypothesis Hlive : heap s !! l = Some d.
Hypothesis Hfree : lock d = false.
Hypothesis Hready : ready d <> 0.

(** A reading is cached and [kzalloc] has memory: the session is
    stored on the file and nothing else changes. *)
Lemma open_ready :
  run (co2meter_open minor file true) s =
  Ret 0 (with_private_data
           (<[file := session_of (co2_level d)]> (private_data s)) s).
Proof using Hnode Hdata Hlive Hfree Hready.
  unfold co2meter_open. repeat run_prim.
  rewrite Hnode, Z.eqb_refl. simpl negb. cbv iota.
  repeat run_prim. rewrite Hdata. repeat run_prim.
  rewrite Hfree. repeat run_prim.
  change (ready (set_lock true d)) with (ready d).
  destruct (Z.eqb_spec (ready d) 0) as [E | _]; [contradiction |].
  repeat run_prim.
  change (co2_level (set_lock true d)) with (co2_level d).
  f_equal.
  unfold with_private_data, with_heap; simpl.
  rewrite insert_insert_eq, (unlock_lock d Hfree), (insert_id _ _ _ Hlive).
  reflexivity.
Qed.

(** A reading is cached and [kzalloc] has no memory: [open] writes
    through the NULL pointer, with the guard held. *)
Lemma open_no_memory :
  run (co2meter_open minor file false) s =
  Oops (with_heap (<[l := set_lock true d]> (heap s)) s).
Proof using Hnode Hdata Hlive Hfree Hready.
  unfold co2meter_open. repeat run_prim.
  rewrite Hnode, Z.eqb_refl. simpl negb. cbv iota.
  repeat run_prim. rewrite Hdata. repeat run_prim.
  rewrite Hfree. repeat run_prim.
  change (ready (set_lock true d)) with (ready d).
  destruct (Z.eqb_spec (ready d) 0) as [E | _]; [contradiction |].
  repeat run_prim.
  reflexivity.
Qed.
End OpenReady.

(** ** The Consumer Session: read and close *)

Lemma read_no_session (s : kstate) (file : nat) (count ppos : Z) :
  private_data s !! file = None ->
  run (co2meter_read file count ppos) s = Ret (- ENODEV, [], ppos) s.
Proof.
  intros Hnone. unfold co2meter_read.
  repeat run_prim. rewrite Hnone. reflexivity.
Qed.

Lemma read_session (s : kstate) (file : nat) (fd : co2meter_file_data)
    (count ppos : Z) :
  private_data s !! file = Some fd ->
  run (co2meter_read file count ppos) s =
  Ret (simple_read_from_buffer count ppos (buf fd) (buf_size fd)) s.
Proof.
  intros Hsome. unfold co2meter_read.
  repeat run_prim. rewrite Hsome. reflexivity.
Qed.

(** C6: [open] fails with -ENODEV when no device node is registered under
    the requested minor, and when the node is there and the guard free
    but [ready] is 0; [read] fails with -ENODEV on a file with no session.
    Each of these calls returns with the state exactly as it found it. *)
Theorem C6_no_such_device (s : kstate) (minor : Z) (file : nat)
    (alloc_ok : bool) (count ppos : Z) :
  (node s <> Some minor ->
   run (co2meter_open minor file alloc_ok) s = Ret (- ENODEV) s) /\
  (forall l d,
     node s = Some minor -> intfdata s = Some l -> heap s !! l = Some d ->
     lock d = false -> ready d = 0 ->
     run (co2meter_open minor file alloc_ok) s = Ret (- ENODEV) s) /\
  (private_data s !! file = None ->
   run (co2meter_read file count ppos) s = Ret (- ENODEV, [], ppos) s).
Proof.
  split; [apply open_no_node |].
  split; [| apply read_no_session].
  intros l d Hnode Hdata Hlive Hfree Hready.
  apply (open_not_ready s minor file alloc_ok l d); assumption.
Qed.

Lemma C6_no_such_device_witness :
  run (co2meter_open CO2MON_MINOR_BASE 7%nat true) boot = Ret (- ENODEV) boot /\
  run (co2meter_open CO2MON_MINOR_BASE 7%nat true) attached = Ret (- ENODEV) attached /\
  run (co2meter_read 7%nat 16 0) attached = Ret (- ENODEV, [], 0) attached.
Proof.
  split; [| split].
  - apply (proj1 (C6_no_such_device boot CO2MON_MINOR_BASE 7%nat true 16 0)).
    discriminate.
  - apply (proj1 (proj2 (C6_no_such_device attached CO2MON_MINOR_BASE 7%nat true 16 0))
             the_dev
             {| lock := false; work_data := {| pending := true |};
                read_endpoint := 0x81; co2_level := 0; ready := 0 |});
      reflexivity.
  - apply (proj2 (proj2 (C6_no_such_device attached CO2MON_MINOR_BASE 7%nat true 16 0))).
    reflexivity.
Defined.

(** ** Decimal rendering *)

Lemma digit_value (d : Z) : 0 <= d < 10 -> u8 (digit d) = 48 + d.
Proof.
  intros H.
  assert (d = 0 \/ d = 1 \/ d = 2 \/ d = 3 \/ d = 4 \/
          d = 5 \/ d = 6 \/ d = 7 \/ d = 8 \/ d = 9) as Hd by lia.
  repeat (destruct Hd as [-> | Hd]; [reflexivity |]). subst d. reflexivity.
Qed.

Lemma dec_value_app (ds ds' : list byte) (acc : Z) :
  dec_value acc (ds ++ ds') = dec_value (dec_value acc ds) ds'.
Proof.
  revert acc. induction ds as [| c ds IH]; intros acc; simpl; [reflexivity |].
  apply IH.
Qed.

Lemma put_dec_app (n : nat) (v : Z) (acc : list byte) :
  put_dec n v acc = put_dec n v [] ++ acc.
Proof.
  revert v acc. induction n as [| n IH]; intros v acc; simpl; [reflexivity |].
  destruct (v / 10 =? 0); [reflexivity |].
  rewrite (IH (v / 10) (digit (v mod 10) :: acc)).
  rewrite (IH (v / 10) [digit (v mod 10)]).
  rewrite <- app_assoc. reflexivity.
Qed.

Lemma put_dec_length (n : nat) (v : Z) :
  (List.length (put_dec n v []) <= S n)%nat.
Proof.
  revert v. induction n as [| n IH]; intros v; simpl; [lia |].
  destruct (v / 10 =? 0); simpl; [lia |].
  rewrite put_dec_app, length_app. simpl. specialize (IH (v / 10)). lia.
Qed.

Lemma one_digit (v : Z) :
  0 <= v < 10 -> decimal_of v [digit (v mod 10)].
Proof.
  intros Hv. rewrite (Z.mod_small v 10) by lia.
  pose proof (digit_value v Hv) as Hd.
  unfold decimal_of. simpl. rewrite Hd.
  split; [| split; [| split]].
  - constructor; [unfold is_digit; lia | constructor].
  - lia.
  - reflexivity.
  - intros Hpos. change (10 ^ (1 - 1)) with 1. change (10 ^ 1) with 10. lia.
Qed.

Lemma put_dec_decimal (n : nat) (v : Z) :
  0 <= v < 10 ^ Z.of_nat (S n) -> decimal_of v (put_dec n v []).
Proof.
  revert v. induction n as [| n IH]; intros v Hv.
  - simpl. apply one_digit. change (10 ^ Z.of_nat 1) with 10 in Hv. lia.
  - simpl. destruct (Z.eqb_spec (v / 10) 0) as [Hq | Hq].
    + apply one_digit.
      pose proof (Z.div_mod v 10 ltac:(lia)).
      pose proof (Z.mod_pos_bound v 10 ltac:(lia)). lia.
    + assert (Hq' : 0 < v / 10 < 10 ^ Z.of_nat (S n)).
      { split.
        - pose proof (Z.div_pos v 10 ltac:(lia) ltac:(lia)). lia.
        - apply Z.div_lt_upper_bound; [lia |].
          rewrite <- Z.pow_succ_r by lia. rewrite <- Nat2Z.inj_succ. lia. }
      destruct (IH (v / 10) ltac:(lia)) as (Hdig & Hval & _ & Hlen).
      specialize (Hlen ltac:(lia)).
      pose proof (Z.mod_pos_bound v 10 ltac:(lia)) as Hm.
      pose proof (Z.div_mod v 10 ltac:(lia)) as Hdm.
      rewrite put_dec_app.
      set (ds := put_dec n (v / 10) []) in *.
      unfold decimal_of.
      rewrite dec_value_app, Hval, length_app. simpl.
      rewrite (digit_value _ Hm).
      split; [| split; [| split]].
      * apply Forall_app. split; [exact Hdig |].
        constructor; [unfold is_digit; rewrite (digit_value _ Hm); lia | constructor].
      * lia.
      * intros ->. change (0 / 10) with 0 in Hq. contradiction.
      * intros _.
        assert (Hk : 1 <= Z.of_nat (List.length ds)).
        { destruct ds; simpl in *; [| lia].
          change (10 ^ (0 - 1)) with 0 in Hlen. change (10 ^ 0) with 1 in Hlen. lia. }
        replace (Z.of_nat (List.length ds + 1) - 1)
          with (Z.succ (Z.of_nat (List.length ds) - 1)) by lia.
        replace (Z.of_nat (List.length ds + 1))
          with (Z.succ (Z.of_nat (List.length ds))) by lia.
        rewrite !Z.pow_succ_r by lia. lia.
Qed.

(** The text of a [u32] reading: its decimal rendering and a newline, at
    most 11 bytes. *)
Lemma format_u_nl_decimal (v : Z) :
  0 <= v < 2 ^ 32 ->
  exists ds, format_u_nl v = ds ++ [x0a] /\ decimal_of v ds /\
             (List.length ds <= 10)%nat.
Proof.
  intros Hv. exists (put_dec 9 v []).
  unfold format_u_nl. rewrite (Z.mod_small v (2 ^ 32)) by lia.
  split; [reflexivity |]. split; [| apply put_dec_length].
  apply put_dec_decimal.
  change (10 ^ Z.of_nat 10) with 10000000000.
  change (2 ^ 32) with 4294967296 in Hv. lia.
Qed.

(** ** Sessions *)

Lemma scnprintf_fits (old text : list byte) (size : Z) :
  Z.of_nat (List.length text) <= size - 1 ->
  scnprintf old size text =
  ((text ++ [x00]) ++ drop (S (List.length text)) old,
   Z.of_nat (List.length text)).
Proof.
  intros Hfit. unfold scnprintf.
  rewrite Z.min_l by exact Hfit. rewrite Nat2Z.id, firstn_all.
  rewrite length_app. simpl. rewrite Nat.add_1_r. reflexivity.
Qed.

Lemma session_of_text (v : Z) :
  0 <= v < 2 ^ 32 ->
  formatted_text (session_of v) = format_u_nl v /\
  buf_size (session_of v) = Z.of_nat (List.length (format_u_nl v)).
Proof.
  intros Hv.
  destruct (format_u_nl_decimal v Hv) as (ds & Htext & _ & Hlen).
  unfold session_of. rewrite scnprintf_fits.
  - unfold formatted_text. simpl buf. simpl buf_size.
    rewrite Nat2Z.id, <- app_assoc, take_app_length. split; reflexivity.
  - rewrite Htext, length_app. simpl. unfold CO2METER_DATA_SIZE. lia.
Qed.

(** What [simple_read_from_buffer] serves out of a session. *)
Lemma read_from_session (fd : co2meter_file_data) (count o : Z) :
  0 <= count -> 0 <= o ->
  let n := Z.max 0 (Z.min count (buf_size fd - o)) in
  simple_read_from_buffer count o (buf fd) (buf_size fd) =
  (n, take (Z.to_nat n) (drop (Z.to_nat o) (formatted_text fd)), o + n).
Proof.
  intros Hc Ho n. unfold simple_read_from_buffer.
  destruct (Z.ltb_spec o 0) as [Hneg | _]; [lia |].
  destruct (Z.geb_spec o (buf_size fd)) as [Hend | Hin];
    [| destruct (Z.eqb_spec count 0) as [Hz | Hnz] ]; simpl orb; cbv iota.
  - replace n with 0 by lia. rewrite Z.add_0_r. reflexivity.
  - replace n with 0 by lia. rewrite Z.add_0_r. reflexivity.
  - assert (Hn : n = if count >? buf_size fd - o
                     then buf_size fd - o else count).
    { destruct (Z.gtb_spec count (buf_size fd - o)); lia. }
    rewrite <- Hn. f_equal. f_equal.
    unfold formatted_text.
    rewrite skipn_firstn_comm, take_take.
    f_equal. lia.
Qed.

(** C7: [open], with the guard free, a reading [v] cached and memory for
    the session, stores a session whose text is the decimal rendering of
    [v] followed by a newline, of length the number of digits plus one, at
    most 11. A [read] of [count] bytes at offset [o] on that session
    returns the [n] bytes of the text from [o] on and advances the offset
    by [n], where [n] is min(count, length - o) as long as [o] is within
    the text and 0 once [o] has reached its end. *)
Theorem C7_session_text_and_reads (s : kstate) (minor : Z) (file : nat)
    (l : loc) (d : usb_co2meter) :
  node s = Some minor -> intfdata s = Some l -> heap s !! l = Some d ->
  lock d = false -> ready d <> 0 -> 0 <= co2_level d < 2 ^ 32 ->
  exists s' fd ds,
    run (co2meter_open minor file true) s = Ret 0 s' /\
    private_data s' !! file = Some fd /\
    formatted_text fd = ds ++ [x0a] /\
    decimal_of (co2_level d) ds /\
    buf_size fd = Z.of_nat (List.length ds) + 1 /\
    buf_size fd <= 11 /\
    forall s'' count o,
      private_data s'' !! file = Some fd -> 0 <= count -> 0 <= o ->
      exists n,
        run (co2meter_read file count o) s'' =
        Ret (n, take (Z.to_nat n) (drop (Z.to_nat o) (formatted_text fd)),
             o + n) s'' /\
        (o <= buf_size fd -> n = Z.min count (buf_size fd - o)) /\
        (buf_size fd <= o -> n = 0).
Proof.
  intros Hnode Hdata Hlive Hfree Hready Hv.
  destruct (format_u_nl_decimal _ Hv) as (ds & Htext & Hdec & Hlen).
  destruct (session_of_text _ Hv) as (Hft & Hsize).
  rewrite Htext in Hft. rewrite Htext, length_app in Hsize.
  change (List.length [x0a]) with 1%nat in Hsize.
  exists (with_private_data
            (<[file := session_of (co2_level d)]> (private_data s)) s),
         (session_of (co2_level d)), ds.
  split; [apply (open_ready s minor file l d); assumption |].
  split; [simpl; apply lookup_insert_eq |].
  split; [exact Hft |]. split; [exact Hdec |].
  split; [lia |]. split; [lia |].
  intros s'' count o Hsess Hc Ho.
  exists (Z.max 0 (Z.min count (buf_size (session_of (co2_level d)) - o))).
  split; [| split; lia].
  rewrite (read_session s'' file _ count o Hsess).
  rewrite read_from_session by assumption. reflexivity.
Qed.

Lemma C7_session_text_and_reads_witness :
  exists s' fd ds,
    run (co2meter_open CO2MON_MINOR_BASE 7%nat true) warmed = Ret 0 s' /\
    private_data s' !! 7%nat = Some fd /\
    formatted_text fd = ds ++ [x0a] /\
    decimal_of 400 ds /\
    buf_size fd = Z.of_nat (List.length ds) + 1 /\
    buf_size fd <= 11 /\
    forall s'' count o,
      private_data s'' !! 7%nat = Some fd -> 0 <= count -> 0 <= o ->
      exists n,
        run (co2meter_read 7%nat count o) s'' =
        Ret (n, take (Z.to_nat n) (drop (Z.to_nat o) (formatted_text fd)),
             o + n) s'' /\
        (o <= buf_size fd -> n = Z.min count (buf_size fd - o)) /\
        (buf_size fd <= o -> n = 0).
Proof.
  apply (C7_session_text_and_reads warmed CO2MON_MINOR_BASE 7%nat the_dev
           {| lock := false; work_data := {| pending := true |};
              read_endpoint := 0x81; co2_level := 400; ready := 1 |}).
  - reflexivity.
  - reflexivity.
  - reflexivity.
  - reflexivity.
  - simpl. discriminate.
  - simpl. lia.
Defined.

(** ** What a program leaves alone *)

Lemma preserves_bind {A B : Type} (R : kstate -> kstate -> Prop)
    (p : prog A) (f : A -> prog B) :
  preserves R p -> (forall a, preserves R (f a)) -> preserves R (bind p f).
Proof.
  intros Hp Hf. induction p as [a | X a k IH]; simpl in *; [apply Hf |].
  destruct Hp as [Ha Hk]. split; [exact Ha |].
  intros x. apply IH, Hk.
Qed.

Lemma preserves_atomic {X : Type} (R : kstate -> kstate -> Prop)
    (a : kstate -> res X) :
  (forall s x s', a s = Step x s' -> R s s') -> preserves R (atomic a).
Proof. intros Ha. split; [exact Ha | intros x; exact I]. Qed.

(** A relation that every step respects holds between the state a
    program starts in and the state it ends in, however it ends. *)
Lemma run_preserves {A : Type} (R : kstate -> kstate -> Prop) (p : prog A) :
  (forall s, R s s) ->
  (forall s1 s2 s3, R s1 s2 -> R s2 s3 -> R s1 s3) ->
  preserves R p -> forall s, R s (final (run p s)).
Proof.
  intros Hrefl Htrans. induction p as [a | X a k IH]; intros Hp s; simpl.
  - apply Hrefl.
  - destruct Hp as [Ha Hk].
    destruct (a s) as [x s' | |] eqn:E; simpl; [| apply Hrefl | apply Hrefl].
    apply (Htrans s s'); [apply (Ha s x s' E) | apply IH, Hk].
Qed.

Lemma same_sessions_refl (s : kstate) : same_sessions s s.
Proof. reflexivity. Qed.

Lemma same_sessions_trans (s1 s2 s3 : kstate) :
  same_sessions s1 s2 -> same_sessions s2 s3 -> same_sessions s1 s3.
Proof. unfold same_sessions. congruence. Qed.

Lemma same_readings_refl (s : kstate) : same_readings s s.
Proof. intros l d H. exists d. auto. Qed.

Lemma same_readings_trans (s1 s2 s3 : kstate) :
  same_readings s1 s2 -> same_readings s2 s3 -> same_readings s1 s3.
Proof.
  intros H12 H23 l d H.
  destruct (H12 l d H) as (d2 & H2 & Hr2 & Hc2).
  destruct (H23 l d2 H2) as (d3 & H3 & Hr3 & Hc3).
  exists d3. repeat split; congruence.
Qed.

Lemma same_readings_heap (s s' : kstate) :
  heap s' = heap s -> same_readings s s'.
Proof. intros E l d H. exists d. rewrite E. auto. Qed.

Lemma same_readings_store (s : kstate) (l : loc) (d d' : usb_co2meter) :
  heap s !! l = Some d -> ready d' = ready d -> co2_level d' = co2_level d ->
  same_readings s (with_heap (<[l := d']> (heap s)) s).
Proof.
  intros Hl Hr Hc l0 d0 H0. simpl.
  destruct (decide (l = l0)) as [-> | Hne].
  - rewrite lookup_insert_eq. assert (d0 = d) as -> by congruence.
    exists d'. auto.
  - rewrite lookup_insert_ne by exact Hne. exists d0. auto.
Qed.

(** Take a program apart down to its atomic steps. *)
Ltac split_prog :=
  repeat match goal with
    | |- preserves _ (bind _ _) => apply preserves_bind; [| intros]
    | |- preserves _ (Return _) => exact I
    | |- preserves _ (if ?b then _ else _) => destruct b
    | |- preserves _ (match ?x with _ => _ end) => destruct x
    | |- preserves _ (atomic _) => apply preserves_atomic; intros
    end.

Ltac step_cases :=
  repeat match goal with
    | H : context [match ?x with _ => _ end] |- _ => destruct x eqn:?
    | H : Step _ _ = Step _ _ |- _ => inversion H; subst; clear H
    | H : Wait = Step _ _ |- _ => discriminate H
    | H : Crash = Step _ _ |- _ => discriminate H
    end.

(** The Poll Loop writes no session. *)
Lemma handle_input_same_sessions (dev : option loc) (io : poll_io) :
  preserves same_sessions (co2meter_handle_input dev io).
Proof.
  unfold co2meter_handle_input, mutex_lock, mutex_unlock, schedule_work,
    load, update, dev_err, usb_bulk_msg.
  split_prog; step_cases; reflexivity.
Qed.

Lemma process_one_work_same_sessions (dev : loc) (io : poll_io) :
  preserves same_sessions (process_one_work dev io).
Proof.
  unfold process_one_work.
  apply preserves_bind;
    [unfold claim_work; split_prog; step_cases; reflexivity |].
  intros [|]; [| exact I].
  apply preserves_bind; [apply handle_input_same_sessions |].
  intros. split_prog; step_cases; reflexivity.
Qed.

Lemma poll_loop_same_sessions (dev : loc) (ios : list poll_io) :
  preserves same_sessions (poll_loop dev ios).
Proof.
  induction ios as [| io ios IH]; [exact I |].
  change (poll_loop dev (io :: ios))
    with (bind (process_one_work dev io) (fun _ => poll_loop dev ios)).
  apply preserves_bind; [apply process_one_work_same_sessions |].
  intros _. exact IH.
Qed.

(** The consumer's calls write no reading. *)
Lemma open_same_readings (minor : Z) (file : nat) (alloc_ok : bool) :
  preserves same_readings (co2meter_open minor file alloc_ok).
Proof.
  unfold co2meter_open, usb_find_interface, usb_get_intfdata, mutex_lock,
    mutex_unlock, load, update, kzalloc_file_data, format_file_data,
    set_private_data.
  split_prog; step_cases;
    first [ apply same_readings_refl
          | eapply same_readings_store; [eassumption | reflexivity | reflexivity]
          | apply same_readings_heap; reflexivity ].
Qed.

Lemma read_same_readings (file : nat) (count ppos : Z) :
  preserves same_readings (co2meter_read file count ppos).
Proof.
  unfold co2meter_read, get_private_data.
  split_prog; step_cases; apply same_readings_refl.
Qed.

Lemma release_same_readings (file : nat) :
  preserves same_readings (co2meter_release file).
Proof.
  unfold co2meter_release, get_private_data, kfree_file_data.
  split_prog; step_cases;
    first [apply same_readings_refl | apply same_readings_heap; reflexivity].
Qed.

(** When [open] returns 0, it has stored the session of the cached
    reading and changed nothing else. *)
Lemma open_returns_0 (s s' : kstate) (minor : Z) (file : nat)
    (alloc_ok : bool) (l : loc) (d : usb_co2meter) :
  intfdata s = Some l -> heap s !! l = Some d ->
  run (co2meter_open minor file alloc_ok) s = Ret 0 s' ->
  s' = with_private_data
         (<[file := session_of (co2_level d)]> (private_data s)) s.
Proof.
  intros Hdata Hlive Hrun.
  destruct (decide (node s = Some minor)) as [Hnode | Hnode];
    [| rewrite (open_no_node s minor file alloc_ok Hnode) in Hrun;
       discriminate Hrun].
  destruct (lock d) eqn:Hlock;
    [rewrite (open_guard_held s minor file alloc_ok l d) in Hrun by assumption;
     discriminate Hrun |].
  destruct (decide (ready d = 0)) as [Hready | Hready];
    [rewrite (open_not_ready s minor file alloc_ok l d) in Hrun by assumption;
     discriminate Hrun |].
  destruct alloc_ok.
  - rewrite (open_ready s minor file l d) in Hrun by assumption.
    inversion Hrun. reflexivity.
  - rewrite (open_no_memory s minor file l d) in Hrun by assumption.
    discriminate Hrun.
Qed.

(** C8: the Poll Loop, however many iterations it runs and whatever it
    receives, leaves every session as it is (text and length); [open],
    [read] and [release] leave [ready] and [co2_level] of every device as
    they are; and two successful opens that find the same cached reading
    store the same session. *)
Theorem C8_sessions_and_readings_are_separate :
  (forall s dev ios,
     same_sessions s (final (run (poll_loop dev ios) s))) /\
  (forall s dev io,
     same_sessions s (final (run (co2meter_handle_input dev io) s))) /\
  (forall s minor file alloc_ok,
     same_readings s (final (run (co2meter_open minor file alloc_ok) s))) /\
  (forall s file count ppos,
     same_readings s (final (run (co2meter_read file count ppos) s))) /\
  (forall s file,
     same_readings s (final (run (co2meter_release file) s))) /\
  (forall s1 s2 s1' s2' minor1 minor2 file1 file2 ok1 ok2 l1 l2 d1 d2,
     intfdata s1 = Some l1 -> heap s1 !! l1 = Some d1 ->
     intfdata s2 = Some l2 -> heap s2 !! l2 = Some d2 ->
     co2_level d1 = co2_level d2 ->
     run (co2meter_open minor1 file1 ok1) s1 = Ret 0 s1' ->
     run (co2meter_open minor2 file2 ok2) s2 = Ret 0 s2' ->
     exists fd, private_data s1' !! file1 = Some fd /\
                private_data s2' !! file2 = Some fd).
Proof.
  repeat split.
  - intros s dev ios.
    apply (run_preserves same_sessions _ same_sessions_refl same_sessions_trans).
    apply poll_loop_same_sessions.
  - intros s dev io.
    apply (run_preserves same_sessions _ same_sessions_refl same_sessions_trans).
    apply handle_input_same_sessions.
  - intros s minor file alloc_ok.
    apply (run_preserves same_readings _ same_readings_refl same_readings_trans).
    apply open_same_readings.
  - intros s file count ppos.
    apply (run_preserves same_readings _ same_readings_refl same_readings_trans).
    apply read_same_readings.
  - intros s file.
    apply (run_preserves same_readings _ same_readings_refl same_readings_trans).
    apply release_same_readings.
  - intros s1 s2 s1' s2' minor1 minor2 file1 file2 ok1 ok2 l1 l2 d1 d2
           Hd1 Hl1 Hd2 Hl2 Hsame Hrun1 Hrun2.
    rewrite (open_returns_0 _ _ _ _ _ _ _ Hd1 Hl1 Hrun1).
    rewrite (open_returns_0 _ _ _ _ _ _ _ Hd2 Hl2 Hrun2).
    exists (session_of (co2_level d1)). simpl.
    rewrite Hsame, !lookup_insert_eq. split; reflexivity.
Qed.

Lemma C8_sessions_and_readings_are_separate_witness :
  exists fd,
    private_data (final (run (co2meter_open CO2MON_MINOR_BASE 7%nat true) warmed)) !! 7%nat
    = Some fd /\
    private_data
      (final (run (co2meter_open CO2MON_MINOR_BASE 8%nat true)
                  (final (run (poll_loop the_dev [delivers frame_400])
                              (final (run (co2meter_open CO2MON_MINOR_BASE 7%nat true) warmed))))))
      !! 8%nat
    = Some fd.
Proof.
  apply (proj2 (proj2 (proj2 (proj2 (proj2
           C8_sessions_and_readings_are_separate))))
           warmed
           (final (run (poll_loop the_dev [delivers frame_400])
                       (final (run (co2meter_open CO2MON_MINOR_BASE 7%nat true) warmed))))
           _ _ CO2MON_MINOR_BASE CO2MON_MINOR_BASE 7%nat 8%nat true true
           the_dev the_dev
           {| lock := false; work_data := {| pending := true |};
              read_endpoint := 0x81; co2_level := 400; ready := 1 |}
           {| lock := false; work_data := {| pending := true |};
              read_endpoint := 0x81; co2_level := 400; ready := 1 |}).
  - reflexivity.
  - reflexivity.
  - reflexivity.
  - reflexivity.
  - reflexivity.
  - vm_compute. reflexivity.
  - vm_compute. reflexivity.
Defined.

(** ** Detach *)

(** [cancel_work_sync] waits while the work queue is running the work
    item. *)
Lemma cancel_waits_for_running_work {A : Type} (s : kstate) (l : loc)
    (d : usb_co2meter) (k : unit -> prog A) :
  heap s !! l = Some d -> wq_running s = true ->
  advance (Running (bind (cancel_work_sync (Some l)) k)) s = None.
Proof.
  intros Hl Hrun. simpl. rewrite Hl, Hrun. reflexivity.
Qed.

Lemma run_cancel_work_sync (s : kstate) (l : loc) (d : usb_co2meter) :
  heap s !! l = Some d -> wq_running s = false ->
  run (cancel_work_sync (Some l)) s =
  Ret tt (with_heap (<[l := set_pending false d]> (heap s)) s).
Proof. intros Hl Hidle. simpl. rewrite Hl, Hidle. reflexivity. Qed.

Lemma run_usb_deregister_dev (s : kstate) :
  minor_rwsem s = None \/ minor_rwsem s = Some 0%nat ->
  run usb_deregister_dev s = Ret tt (with_node None s).
Proof. intros [E | E]; simpl; rewrite E; reflexivity. Qed.

Lemma run_kfree (s : kstate) (l : loc) (d : usb_co2meter) :
  heap s !! l = Some d ->
  run (kfree (Some l)) s =
  Ret tt (with_freed (freed s ++ [d]) (with_heap (delete l (heap s)) s)).
Proof. intros Hl. simpl. rewrite Hl. reflexivity. Qed.

(** Detach of a live device whose guard is free, with no poll iteration in
    flight and no [open] holding the host's minor table: the object goes
    to [kfree] with its mutex held. *)
Lemma disconnect_frees_locked (s : kstate) (l : loc) (d : usb_co2meter) :
  intfdata s = Some l -> heap s !! l = Some d -> lock d = false ->
  wq_running s = false ->
  minor_rwsem s = None \/ minor_rwsem s = Some 0%nat ->
  run co2meter_disconnect s =
  Ret tt (with_freed (freed s ++ [set_lock true (set_pending false d)])
            (with_heap (delete l (heap s)) (with_node None s))).
Proof.
  intros Hdata Hlive Hfree Hidle Hsem. unfold co2meter_disconnect.
  repeat run_prim. rewrite Hdata.
  rewrite (run_cancel_work_sync s l d Hlive Hidle). cbv iota.
  repeat run_prim. simpl lock. rewrite Hfree.
  repeat run_prim.
  rewrite run_usb_deregister_dev by exact Hsem. cbv iota.
  repeat run_prim. simpl intfdata. rewrite Hdata.
  unfold co2meter_delete.
  erewrite run_kfree by (simpl; apply lookup_insert_eq).
  simpl. unfold with_freed, with_heap, with_node; simpl.
  rewrite delete_insert_eq. reflexivity.
Qed.

(** C9: detach on [warmed] returns with the device object freed, and the
    object went to [kfree] with its mutex held: [co2meter_disconnect]
    takes the guard and never releases it. The poll iteration whose
    buffer allocation fails also returns with the guard held. *)
Theorem C9_guard_held_on_return :
  (exists s' d',
     run co2meter_disconnect warmed = Ret tt s' /\
     heap s' !! the_dev = None /\
     freed s' = [d'] /\ lock d' = true) /\
  (exists s' d',
     run (co2meter_handle_input (Some the_dev) no_memory) warmed = Ret tt s' /\
     heap s' !! the_dev = Some d' /\ lock d' = true).
Proof.
  split.
  - eexists. eexists.
    split; [apply (disconnect_frees_locked warmed the_dev
                     {| lock := false; work_data := {| pending := true |};
                        read_endpoint := 0x81; co2_level := 400; ready := 1 |});
            first [reflexivity | left; reflexivity] |].
    split; [reflexivity |]. split; reflexivity.
  - eexists. eexists.
    split; [apply (handle_input_no_memory warmed the_dev
                     {| lock := false; work_data := {| pending := true |};
                        read_endpoint := 0x81; co2_level := 400; ready := 1 |});
            reflexivity |].
    split; [simpl; apply lookup_insert_eq | reflexivity].
Qed.

(** C10: [open] on [warmed] when [kzalloc] has no memory for the session:
    the call does not return; it writes through the NULL pointer while it
    holds the guard, and no session is stored on the file. *)
Theorem C10_open_without_memory :
  exists s' d',
    run (co2meter_open CO2MON_MINOR_BASE 7%nat false) warmed = Oops s' /\
    heap s' !! the_dev = Some d' /\ lock d' = true /\
    private_data s' !! 7%nat = None.
Proof.
  eexists. eexists.
  split; [apply (open_no_memory warmed CO2MON_MINOR_BASE 7%nat the_dev
                   {| lock := false; work_data := {| pending := true |};
                      read_endpoint := 0x81; co2_level := 400; ready := 1 |});
          first [reflexivity | discriminate] |].
  split; [apply live_after |]. split; reflexivity.
Qed.

(** C2: the failing iteration on [warmed]. It logs and queues the next
    iteration, but it returns with the guard held: the next iteration,
    whatever the transport answers, and every [open] of the node then
    sleep in [mutex_lock] for ever. *)
Theorem C2_no_memory_iteration_keeps_guard :
  exists s' d',
    run (process_one_work the_dev no_memory) warmed = Ret tt s' /\
    heap s' !! the_dev = Some d' /\
    klog s' = ["Could not allocate buffer for transfer"%string] /\
    pending (work_data d') = true /\
    lock d' = true /\
    (forall io, run (process_one_work the_dev io) s' =
                Sleep (with_wq_running true
                         (with_heap (<[the_dev := set_pending false d']> (heap s')) s'))) /\
    (forall file alloc_ok,
        run (co2meter_open CO2MON_MINOR_BASE file alloc_ok) s' = Sleep s').
Proof.
  eexists. eexists.
  split; [vm_compute; reflexivity |].
  split; [vm_compute; reflexivity |].
  split; [reflexivity |].
  split; [reflexivity |].
  split; [reflexivity |].
  split.
  - intros io.
    erewrite run_process_one_work; [| vm_compute; reflexivity | reflexivity | reflexivity].
    erewrite handle_input_guard_held; [reflexivity | apply live_after | reflexivity].
  - intros file alloc_ok.
    eapply open_guard_held; [reflexivity | reflexivity | vm_compute; reflexivity | reflexivity].
Qed.

(** C1: a consumer opens the node of [warmed] while the host detaches the
    device. On a host that does not serialise [open] with deregistration,
    after [open] has fetched the device pointer detach can run to its end,
    and [open] then locks the mutex of the freed object. On a host that
    serialises them, after detach has taken the guard [open] waits for the
    guard and detach waits for [open]: both are still inside their calls
    and neither can move. *)
Theorem C1_open_races_detach :
  (exists s,
     play [T_open; T_open;
           T_detach; T_detach; T_detach; T_detach; T_detach; T_detach;
           T_open]
          (race warmed (co2meter_open CO2MON_MINOR_BASE 7%nat true))
     = Some {| v_mem := s; v_open := Faulted; v_detach := Returned tt;
               v_work := Returned tt; v_stuck := true |} /\
     heap s !! the_dev = None /\ List.length (freed s) = 1%nat) /\
  (exists s d,
     play [T_open; T_open; T_open; T_detach; T_detach; T_detach]
          (race warmed_serialised (usb_open CO2MON_MINOR_BASE 7%nat true))
     = Some {| v_mem := s; v_open := Inside; v_detach := Inside;
               v_work := Returned tt; v_stuck := true |} /\
     heap s !! the_dev = Some d /\ lock d = true /\ node s = Some CO2MON_MINOR_BASE).
Proof.
  split.
  - eexists.
    split; [vm_compute; reflexivity |].
    split; reflexivity.
  - eexists. eexists.
    split; [vm_compute; reflexivity |].
    split; [vm_compute; reflexivity |].
    split; reflexivity.
Qed.

(** ** The model at work *)

(** Attach, three frames that are rejected, one frame with reading 512,
    then open, read, close and detach: [read] returns the four bytes
    "512\n", close frees the session, and detach leaves no device object
    and no node. *)
Example attach_poll_open_read_close_detach :
  exists s',
    run (co2meter_probe true (Some 0x81) (inl CO2MON_MINOR_BASE) ;;
         poll_loop the_dev (noise ++ [delivers frame_512]) ;;
         opened <- co2meter_open CO2MON_MINOR_BASE 7%nat true ;;
         got <- co2meter_read 7%nat 100 0 ;;
         closed <- co2meter_release 7%nat ;;
         co2meter_disconnect ;;
         Return (opened, got, closed)) boot
    = Ret (0, (4, [x35; x31; x32; x0a], 4), 0) s' /\
    heap s' = ∅ /\ node s' = None /\
    freed_sessions s' = [session_of 512] /\ klog s' = [].
Proof.
  eexists. split; [vm_compute; reflexivity |]. repeat split; reflexivity.
Qed.

(** When [open] runs to its end before detach starts, both return. *)
Example open_then_detach :
  exists s,
    play [T_open; T_open; T_open; T_open; T_open; T_open; T_open; T_open;
          T_open;
          T_detach; T_detach; T_detach; T_detach; T_detach; T_detach]
         (race warmed (co2meter_open CO2MON_MINOR_BASE 7%nat true))
    = Some {| v_mem := s; v_open := Returned 0; v_detach := Returned tt;
              v_work := Returned tt; v_stuck := true |} /\
    private_data s !! 7%nat = Some (session_of 400).
Proof.
  eexists. split; [vm_compute; reflexivity | reflexivity].
Qed.

(** When [open] starts after detach has ended, it finds no node. *)
Example detach_then_open :
  exists s,
    play [T_detach; T_detach; T_detach; T_detach; T_detach; T_detach;
          T_open]
         (race warmed (co2meter_open CO2MON_MINOR_BASE 7%nat true))
    = Some {| v_mem := s; v_open := Returned (- ENODEV);
              v_detach := Returned tt; v_work := Returned tt;
              v_stuck := true |} /\
    private_data s !! 7%nat = None.
Proof.
  eexists. split; [vm_compute; reflexivity | reflexivity].
Qed.

(** * Further properties of the driver *)

(** ** The Frame Decoder: what an accepted frame can carry *)

Lemma valid_frame_facts (r t : Z) (b : list byte) :
  frame_valid r t b = true ->
  u8 (at_ b 1) + u8 (at_ b 2) <= 175 /\
  frame_reading b = u8 (at_ b 1) * 256 + u8 (at_ b 2) /\
  0 <= frame_reading b <= 44800.
Proof.
  intros Hok. apply frame_valid_spec in Hok.
  destruct Hok as (_ & _ & H0 & Hsum & _).
  pose proof (u8_range (at_ b 1)). pose proof (u8_range (at_ b 2)).
  pose proof (u8_range (at_ b 3)).
  assert (Hmod : frame_reading b = u8 (at_ b 1) * 256 + u8 (at_ b 2)).
  { unfold frame_reading. apply Z.mod_small.
    change (2 ^ 32) with 4294967296. lia. }
  rewrite Hmod. lia.
Qed.

(** X1: an accepted frame has byte[1] + byte[2] at most 175 (the checksum
    byte is at most 255 and byte[0] is 0x50), and its reading is
    byte[1] * 256 + byte[2] as it stands, the store into the [u32] changing
    nothing; so no accepted reading exceeds 44800. *)
Theorem accepted_frame_reading_bound (r t : Z) (b : list byte) :
  frame_valid r t b = true ->
  u8 (at_ b 1) + u8 (at_ b 2) <= 175 /\
  frame_reading b = u8 (at_ b 1) * 256 + u8 (at_ b 2) /\
  0 <= frame_reading b <= 44800.
Proof. intros Hok. exact (valid_frame_facts r t b Hok). Qed.

Lemma accepted_frame_reading_bound_witness :
  u8 (at_ frame_512 1) + u8 (at_ frame_512 2) <= 175 /\
  frame_reading frame_512 = u8 (at_ frame_512 1) * 256 + u8 (at_ frame_512 2) /\
  0 <= frame_reading frame_512 <= 44800.
Proof.
  apply (accepted_frame_reading_bound 0 5 frame_512). reflexivity.
Defined.

(** ** The Poll Loop: what an iteration does to the device *)

(** X2: an iteration that finds the guard free, gets its buffer and
    receives an accepted frame returns with [ready] = 1 and [co2_level] =
    byte[1] * 256 + byte[2], the guard released and the work queued again;
    the endpoint, every other object and the rest of the kernel state are
    as before. *)
Theorem iteration_stores_accepted_reading (s : kstate) (l : loc)
    (d : usb_co2meter) (io : poll_io) :
  heap s !! l = Some d -> lock d = false -> buf_alloc io = true ->
  accepted io = true ->
  run (co2meter_handle_input (Some l) io) s =
  Ret tt (with_heap
            (<[l := {| lock := false; work_data := {| pending := true |};
                       read_endpoint := read_endpoint d;
                       co2_level := u8 (at_ (transfer_buffer io) 1) * 256
                                    + u8 (at_ (transfer_buffer io) 2);
                       ready := 1 |}]> (heap s)) s).
Proof.
  intros Hl Hfree Hbuf Hok. unfold accepted in Hok.
  rewrite (handle_input_accepts s l d io Hl Hfree Hbuf Hok).
  destruct (valid_frame_facts _ _ _ Hok) as (_ & -> & _).
  destruct d; simpl in *; subst. reflexivity.
Qed.

Lemma iteration_stores_accepted_reading_witness :
  run (co2meter_handle_input (Some the_dev) (delivers frame_512)) warmed =
  Ret tt (with_heap
            (<[the_dev := {| lock := false; work_data := {| pending := true |};
                             read_endpoint := 0x81;
                             co2_level := 512; ready := 1 |}]> (heap warmed))
            warmed).
Proof.
  apply (iteration_stores_accepted_reading warmed the_dev
           {| lock := false; work_data := {| pending := true |};
              read_endpoint := 0x81; co2_level := 400; ready := 1 |}
           (delivers frame_512)); reflexivity.
Defined.

(** The state after one round of the work queue on a queued, idle work
    item whose iteration gets its buffer. *)
Lemma round_with_buffer (s : kstate) (l : loc) (d : usb_co2meter)
    (io : poll_io) :
  heap s !! l = Some d -> lock d = false ->
  pending (work_data d) = true -> wq_running s = false ->
  buf_alloc io = true ->
  run (process_one_work l io) s =
  Ret tt (with_heap
            (<[l := if accepted io
                    then set_co2_level (frame_reading (transfer_buffer io))
                                       (set_ready 1 d)
                    else d]> (heap s)) s).
Proof.
  intros Hl Hfree Hpend Hidle Hbuf.
  rewrite (run_process_one_work s l d io Hl Hpend Hidle).
  set (s1 := with_wq_running true
               (with_heap (<[l := set_pending false d]> (heap s)) s)).
  assert (Hl1 : heap s1 !! l = Some (set_pending false d))
    by (simpl; apply lookup_insert_eq).
  unfold accepted.
  destruct (frame_valid (retval io) (transfer_size io) (transfer_buffer io))
    eqn:Hok.
  - rewrite (handle_input_accepts s1 l _ io Hl1 Hfree Hbuf Hok).
    f_equal. unfold s1, with_wq_running, with_heap; simpl.
    rewrite insert_insert_eq, <- Hidle.
    destruct d as [lk [p] ep c r]; simpl in *; subst.
    destruct s; reflexivity.
  - rewrite (handle_input_rejects s1 l _ io Hl1 Hfree Hbuf Hok).
    f_equal. unfold s1, with_wq_running, with_heap; simpl.
    rewrite insert_insert_eq, <- Hidle.
    destruct d as [lk [p] ep c r]; simpl in *; subst.
    destruct s; reflexivity.
Qed.

(** X3: the Poll Loop caches the latest accepted reading. From a live
    device with the guard free and the work queued and idle, any number of
    iterations that all get their buffer return with [ready] and
    [co2_level] those of the last accepted frame (unchanged if no frame
    was accepted), the guard free and the work queued; nothing else
    changes. *)
Theorem poll_loop_caches_latest (ios : list poll_io) (s : kstate) (l : loc)
    (d : usb_co2meter) :
  heap s !! l = Some d -> lock d = false ->
  pending (work_data d) = true -> wq_running s = false ->
  forallb buf_alloc ios = true ->
  run (poll_loop l ios) s =
  Ret tt (with_heap
            (<[l := set_co2_level (snd (latest ios (ready d, co2_level d)))
                      (set_ready (fst (latest ios (ready d, co2_level d))) d)]>
               (heap s)) s).
Proof.
  revert s d. induction ios as [| io ios IH];
    intros s d Hl Hfree Hpend Hidle Hbufs.
  - simpl. f_equal. symmetry.
    replace (set_co2_level (co2_level d) (set_ready (ready d) d)) with d
      by (destruct d; reflexivity).
    apply store_same, Hl.
  - simpl in Hbufs. apply andb_true_iff in Hbufs as [Hbuf Hbufs].
    change (poll_loop l (io :: ios))
      with (bind (process_one_work l io) (fun _ => poll_loop l ios)).
    rewrite run_bind, (round_with_buffer s l d io Hl Hfree Hpend Hidle Hbuf).
    set (d1 := if accepted io
               then set_co2_level (frame_reading (transfer_buffer io))
                                  (set_ready 1 d)
               else d).
    assert (Hfree1 : lock d1 = false) by (unfold d1; destruct (accepted io); assumption).
    assert (Hpend1 : pending (work_data d1) = true)
      by (unfold d1; destruct (accepted io); assumption).
    rewrite (IH _ d1 (live_after s l d1) Hfree1 Hpend1 Hidle Hbufs).
    rewrite store_store. f_equal. f_equal. f_equal.
    simpl latest. unfold d1. destruct (accepted io); reflexivity.
Qed.

Lemma poll_loop_caches_latest_witness :
  run (poll_loop the_dev (noise ++ [delivers frame_512; delivers frame_400_0x91]))
      attached =
  Ret tt (with_heap
            (<[the_dev := set_co2_level 512 (set_ready 1 (probed 0x81))]>
               (heap attached)) attached).
Proof.
  apply (poll_loop_caches_latest
           (noise ++ [delivers frame_512; delivers frame_400_0x91])
           attached the_dev (probed 0x81)); reflexivity.
Defined.

(** ** An invariant of the reading *)

Lemma keeps_wf_refl (s : kstate) : keeps_wf s s.
Proof. intros H. exact H. Qed.

Lemma keeps_wf_trans (s1 s2 s3 : kstate) :
  keeps_wf s1 s2 -> keeps_wf s2 s3 -> keeps_wf s1 s3.
Proof. unfold keeps_wf. auto. Qed.

Lemma keeps_wf_heap (s s' : kstate) : heap s' = heap s -> keeps_wf s s'.
Proof. intros E Hwf l d H. rewrite E in H. exact (Hwf l d H). Qed.

Lemma keeps_wf_store (s : kstate) (l : loc) (d d' : usb_co2meter) :
  heap s !! l = Some d -> (dev_wf d -> dev_wf d') ->
  keeps_wf s (with_heap (<[l := d']> (heap s)) s).
Proof.
  intros Hl Hd Hwf l0 d0 H0. simpl in H0.
  destruct (decide (l = l0)) as [-> | Hne].
  - rewrite lookup_insert_eq in H0. inversion H0; subst.
    apply Hd, (Hwf l0 d Hl).
  - rewrite lookup_insert_ne in H0 by exact Hne. exact (Hwf l0 d0 H0).
Qed.

Lemma keeps_wf_alloc (s : kstate) (l : loc) :
  keeps_wf s (with_heap (<[l := zeroed]> (heap s)) s).
Proof.
  intros Hwf l0 d0 H0. simpl in H0.
  destruct (decide (l = l0)) as [-> | Hne].
  - rewrite lookup_insert_eq in H0. inversion H0; subst.
    split; simpl; [left; reflexivity | lia].
  - rewrite lookup_insert_ne in H0 by exact Hne. exact (Hwf l0 d0 H0).
Qed.

Lemma keeps_wf_free (s : kstate) (l : loc) (ds : list usb_co2meter) :
  keeps_wf s (with_freed ds (with_heap (delete l (heap s)) s)).
Proof.
  intros Hwf l0 d0 H0. simpl in H0.
  destruct (decide (l = l0)) as [-> | Hne].
  - rewrite lookup_delete_eq in H0. discriminate H0.
  - rewrite lookup_delete_ne in H0 by exact Hne. exact (Hwf l0 d0 H0).
Qed.

(** Take a program apart, remembering which way each test went. *)
Ltac split_prog_eq :=
  repeat match goal with
    | |- preserves _ (bind _ _) => apply preserves_bind; [| intros]
    | |- preserves _ (Return _) => exact I
    | |- preserves _ (if ?b then _ else _) => destruct b eqn:?
    | |- preserves _ (match ?x with _ => _ end) => destruct x eqn:?
    | |- preserves _ (atomic _) => apply preserves_atomic; intros
    end.

(** A step that stores into a device object, or leaves the heap alone. *)
Ltac wf_step :=
  first
    [ apply keeps_wf_refl
    | apply keeps_wf_alloc
    | apply keeps_wf_free
    | eapply keeps_wf_store;
      [ eassumption
      | let H := fresh in
        intros [H ?]; split; simpl; first [exact H | assumption | auto] ]
    | apply keeps_wf_heap; reflexivity ].

Lemma handle_input_keeps_wf (dev : option loc) (io : poll_io) :
  preserves keeps_wf (co2meter_handle_input dev io).
Proof.
  unfold co2meter_handle_input, mutex_lock, mutex_unlock, schedule_work,
    load, update, dev_err, usb_bulk_msg.
  split_prog_eq; step_cases; try wf_step.
  match goal with
  | H : frame_valid _ _ _ = true |- _ =>
      destruct (valid_frame_facts _ _ _ H) as (_ & _ & Hb); exact Hb
  end.
Qed.

Lemma process_one_work_keeps_wf (dev : loc) (io : poll_io) :
  preserves keeps_wf (process_one_work dev io).
Proof.
  unfold process_one_work.
  apply preserves_bind;
    [unfold claim_work; split_prog_eq; step_cases; wf_step |].
  intros [|]; [| exact I].
  apply preserves_bind; [apply handle_input_keeps_wf |].
  intros. split_prog_eq; step_cases; wf_step.
Qed.

Lemma poll_loop_keeps_wf (dev : loc) (ios : list poll_io) :
  preserves keeps_wf (poll_loop dev ios).
Proof.
  induction ios as [| io ios IH]; [exact I |].
  change (poll_loop dev (io :: ios))
    with (bind (process_one_work dev io) (fun _ => poll_loop dev ios)).
  apply preserves_bind; [apply process_one_work_keeps_wf |].
  intros _. exact IH.
Qed.

Lemma probe_keeps_wf (alloc_ok : bool) (int_in : option Z)
    (registration : Z + Z) :
  preserves keeps_wf (co2meter_probe alloc_ok int_in registration).
Proof.
  unfold co2meter_probe, kzalloc_dev, mutex_init, usb_find_common_endpoints,
    usb_register_dev, usb_set_intfdata, INIT_WORK, schedule_work, dev_err,
    co2meter_delete, kfree, update.
  split_prog_eq; step_cases; wf_step.
Qed.

Lemma disconnect_keeps_wf : preserves keeps_wf co2meter_disconnect.
Proof.
  unfold co2meter_disconnect, usb_get_intfdata, cancel_work_sync, mutex_lock,
    usb_deregister_dev, co2meter_delete, kfree.
  split_prog_eq; step_cases; wf_step.
Qed.

Lemma open_keeps_wf (minor : Z) (file : nat) (alloc_ok : bool) :
  preserves keeps_wf (co2meter_open minor file alloc_ok).
Proof.
  unfold co2meter_open, usb_find_interface, usb_get_intfdata, mutex_lock,
    mutex_unlock, load, update, kzalloc_file_data, format_file_data,
    set_private_data.
  split_prog_eq; step_cases; wf_step.
Qed.

Lemma read_keeps_wf (file : nat) (count ppos : Z) :
  preserves keeps_wf (co2meter_read file count ppos).
Proof.
  unfold co2meter_read, get_private_data.
  split_prog_eq; step_cases; wf_step.
Qed.

Lemma release_keeps_wf (file : nat) :
  preserves keeps_wf (co2meter_release file).
Proof.
  unfold co2meter_release, get_private_data, kfree_file_data.
  split_prog_eq; step_cases; wf_step.
Qed.

(** X4: every entry point of the driver, and the Poll Loop, keep [ready]
    in {0, 1} and [co2_level] within 0..44800 on every device object,
    however the call ends (returned, waiting, or faulted); before any
    attach there is no device object, so this holds in every state the
    driver can bring about. *)
Theorem reading_stays_in_range :
  all_wf boot /\
  (forall s alloc_ok int_in registration,
     all_wf s ->
     all_wf (final (run (co2meter_probe alloc_ok int_in registration) s))) /\
  (forall s dev io,
     all_wf s -> all_wf (final (run (co2meter_handle_input dev io) s))) /\
  (forall s dev ios,
     all_wf s -> all_wf (final (run (poll_loop dev ios) s))) /\
  (forall s minor file alloc_ok,
     all_wf s -> all_wf (final (run (co2meter_open minor file alloc_ok) s))) /\
  (forall s file count ppos,
     all_wf s -> all_wf (final (run (co2meter_read file count ppos) s))) /\
  (forall s file,
     all_wf s -> all_wf (final (run (co2meter_release file) s))) /\
  (forall s,
     all_wf s -> all_wf (final (run co2meter_disconnect s))).
Proof.
  split; [intros l d H; unfold boot in H; simpl in H;
          rewrite lookup_empty in H; discriminate H |].
  assert (K : forall (A : Type) (p : prog A),
             preserves keeps_wf p ->
             forall s, all_wf s -> all_wf (final (run p s))).
  { intros A p Hp s.
    apply (run_preserves keeps_wf p keeps_wf_refl keeps_wf_trans Hp). }
  split; [intros s alloc_ok int_in registration; apply K, probe_keeps_wf |].
  split; [intros s dev io; apply K, handle_input_keeps_wf |].
  split; [intros s dev ios; apply K, poll_loop_keeps_wf |].
  split; [intros s minor file alloc_ok; apply K, open_keeps_wf |].
  split; [intros s file count ppos; apply K, read_keeps_wf |].
  split; [intros s file; apply K, release_keeps_wf |].
  intros s; apply K, disconnect_keeps_wf.
Qed.

Lemma reading_stays_in_range_witness :
  all_wf (final (run (poll_loop the_dev (noise ++ [delivers frame_512]))
                     (final (run (co2meter_probe true (Some 0x81)
                                                 (inl CO2MON_MINOR_BASE))
                                 boot)))).
Proof.
  apply (proj1 (proj2 (proj2 (proj2 reading_stays_in_range)))).
  apply (proj1 (proj2 reading_stays_in_range)).
  apply (proj1 reading_stays_in_range).
Defined.

(** ** The Consumer Session: reading a session to its end *)

Lemma short_decimal (v : Z) (ds : list byte) :
  0 <= v <= 44800 -> decimal_of v ds ->
  (1 <= List.length ds <= 5)%nat.
Proof.
  intros Hv (_ & _ & Hzero & Hpos).
  destruct (Z.eq_dec v 0) as [-> | Hne]; [rewrite Hzero by reflexivity; lia |].
  specialize (Hpos ltac:(lia)). split.
  - destruct ds; simpl in *; [| lia].
    change (10 ^ 0) with 1 in Hpos. lia.
  - destruct (le_gt_dec (List.length ds) 5) as [Hle | Hgt]; [exact Hle |].
    assert (10 ^ 5 <= 10 ^ (Z.of_nat (List.length ds) - 1))
      by (apply Z.pow_le_mono_r; lia).
    change (10 ^ 5) with 100000 in *. lia.
Qed.

(** X5: when [open] succeeds on a device whose reading is in the range
    the driver keeps, the session holds between 2 and 6 bytes; a [read] of
    6 bytes or more at offset 0 returns the whole text and moves the offset
    to its end, and a [read] at that offset returns 0 and no byte. *)
Theorem session_read_to_the_end (s : kstate) (minor : Z) (file : nat)
    (l : loc) (d : usb_co2meter) (count : Z) :
  node s = Some minor -> intfdata s = Some l -> heap s !! l = Some d ->
  lock d = false -> ready d <> 0 -> dev_wf d -> 6 <= count ->
  exists s' fd,
    run (co2meter_open minor file true) s = Ret 0 s' /\
    private_data s' !! file = Some fd /\
    2 <= buf_size fd <= 6 /\
    run (co2meter_read file count 0) s' =
      Ret (buf_size fd, formatted_text fd, buf_size fd) s' /\
    run (co2meter_read file count (buf_size fd)) s' =
      Ret (0, [], buf_size fd) s'.
Proof.
  intros Hnode Hdata Hlive Hfree Hready [_ Hrange] Hcount.
  assert (Hv : 0 <= co2_level d < 2 ^ 32)
    by (change (2 ^ 32) with 4294967296; lia).
  destruct (format_u_nl_decimal _ Hv) as (ds & Htext & Hdec & _).
  destruct (session_of_text _ Hv) as (Hft & Hsize).
  pose proof (short_decimal _ ds Hrange Hdec) as Hlen.
  rewrite Htext in Hft. rewrite Htext, length_app in Hsize.
  change (List.length [x0a]) with 1%nat in Hsize.
  set (fd := session_of (co2_level d)) in *.
  set (s' := with_private_data (<[file := fd]> (private_data s)) s).
  assert (Hsess : private_data s' !! file = Some fd)
    by (simpl; apply lookup_insert_eq).
  assert (Hall : List.length (formatted_text fd) = Z.to_nat (buf_size fd)).
  { rewrite Hft, length_app, Hsize. simpl. lia. }
  exists s', fd.
  split; [apply (open_ready s minor file l d); assumption |].
  split; [exact Hsess |]. split; [lia |]. split.
  - rewrite (read_session s' file fd count 0 Hsess).
    rewrite read_from_session by lia.
    replace (Z.max 0 (Z.min count (buf_size fd - 0))) with (buf_size fd) by lia.
    simpl drop. rewrite <- Hall, firstn_all. reflexivity.
  - rewrite (read_session s' file fd count (buf_size fd) Hsess).
    rewrite read_from_session by lia.
    replace (Z.max 0 (Z.min count (buf_size fd - buf_size fd))) with 0 by lia.
    rewrite Z.add_0_r. reflexivity.
Qed.

Lemma session_read_to_the_end_witness :
  exists s' fd,
    run (co2meter_open CO2MON_MINOR_BASE 7%nat true) warmed = Ret 0 s' /\
    private_data s' !! 7%nat = Some fd /\
    2 <= buf_size fd <= 6 /\
    run (co2meter_read 7%nat 4096 0) s' =
      Ret (buf_size fd, formatted_text fd, buf_size fd) s' /\
    run (co2meter_read 7%nat 4096 (buf_size fd)) s' =
      Ret (0, [], buf_size fd) s'.
Proof.
  apply (session_read_to_the_end warmed CO2MON_MINOR_BASE 7%nat the_dev
           {| lock := false; work_data := {| pending := true |};
              read_endpoint := 0x81; co2_level := 400; ready := 1 |} 4096).
  - reflexivity.
  - reflexivity.
  - reflexivity.
  - reflexivity.
  - simpl. discriminate.
  - split; simpl; [right; reflexivity | lia].
  - lia.
Defined.

(** X6: two reads one after the other deliver what one read of both
    counts delivers: the bytes of the first followed by those of the
    second, the same total and the same final offset. No byte of the
    session is lost or served twice. *)
Theorem reads_compose (s : kstate) (file : nat) (fd : co2meter_file_data)
    (c1 c2 o : Z) :
  private_data s !! file = Some fd -> 0 <= c1 -> 0 <= c2 -> 0 <= o ->
  exists n1 b1 o1 n2 b2 o2,
    run (co2meter_read file c1 o) s = Ret (n1, b1, o1) s /\
    run (co2meter_read file c2 o1) s = Ret (n2, b2, o2) s /\
    run (co2meter_read file (c1 + c2) o) s = Ret (n1 + n2, b1 ++ b2, o2) s.
Proof.
  intros Hsess H1 H2 Ho.
  set (L := buf_size fd).
  set (n1 := Z.max 0 (Z.min c1 (L - o))).
  set (n2 := Z.max 0 (Z.min c2 (L - (o + n1)))).
  exists n1, (take (Z.to_nat n1) (drop (Z.to_nat o) (formatted_text fd))),
         (o + n1),
         n2, (take (Z.to_nat n2) (drop (Z.to_nat (o + n1)) (formatted_text fd))),
         (o + n1 + n2).
  rewrite !(read_session s file fd _ _ Hsess).
  rewrite !read_from_session by lia. fold L. fold n1. fold n2.
  split; [reflexivity |]. split; [reflexivity |].
  assert (Hn : Z.max 0 (Z.min (c1 + c2) (L - o)) = n1 + n2) by lia.
  rewrite Hn. f_equal. f_equal; [| lia]. f_equal.
  replace (Z.to_nat (n1 + n2)) with (Z.to_nat n1 + Z.to_nat n2)%nat by lia.
  replace (Z.to_nat (o + n1)) with (Z.to_nat o + Z.to_nat n1)%nat by lia.
  rewrite <- drop_drop, take_take_drop. reflexivity.
Qed.

Lemma reads_compose_witness :
  exists n1 b1 o1 n2 b2 o2,
    run (co2meter_read 7%nat 3 0)
        (final (run (co2meter_open CO2MON_MINOR_BASE 7%nat true) warmed))
      = Ret (n1, b1, o1)
            (final (run (co2meter_open CO2MON_MINOR_BASE 7%nat true) warmed)) /\
    run (co2meter_read 7%nat 3 o1)
        (final (run (co2meter_open CO2MON_MINOR_BASE 7%nat true) warmed))
      = Ret (n2, b2, o2)
            (final (run (co2meter_open CO2MON_MINOR_BASE 7%nat true) warmed)) /\
    run (co2meter_read 7%nat (3 + 3) 0)
        (final (run (co2meter_open CO2MON_MINOR_BASE 7%nat true) warmed))
      = Ret (n1 + n2, b1 ++ b2, o2)
            (final (run (co2meter_open CO2MON_MINOR_BASE 7%nat true) warmed)).
Proof.
  apply (reads_compose
           (final (run (co2meter_open CO2MON_MINOR_BASE 7%nat true) warmed))
           7%nat (session_of 400) 3 3 0).
  - reflexivity.
  - lia.
  - lia.
  - lia.
Defined.

(** ** Attach *)

Lemma run_kzalloc_dev (ok : bool) (s : kstate) :
  run (kzalloc_dev ok) s =
  if ok then Ret (Some (fresh (dom (heap s))))
                 (with_heap (<[fresh (dom (heap s)) := zeroed]> (heap s)) s)
  else Ret None s.
Proof. destruct ok; reflexivity. Qed.

Lemma run_dev_err (msg : string) (s : kstate) :
  run (dev_err msg) s = Ret tt (with_klog (klog s ++ [msg]) s).
Proof. reflexivity. Qed.

Lemma run_usb_register_dev (answer : Z + Z) (s : kstate) :
  run (usb_register_dev answer) s =
  match answer with
  | inl m => Ret 0 (with_node (Some m) s)
  | inr e => Ret e s
  end.
Proof. destruct answer; reflexivity. Qed.

Lemma run_usb_set_intfdata (p : option loc) (s : kstate) :
  run (usb_set_intfdata p) s = Ret tt (with_intfdata p s).
Proof. reflexivity. Qed.

Lemma fresh_not_live (s : kstate) : heap s !! fresh (dom (heap s)) = None.
Proof. apply not_elem_of_dom, is_fresh. Qed.

(** Evaluate the next primitive of [co2meter_probe]. *)
Ltac run_attach :=
  first
    [ run_prim
    | rewrite run_kzalloc_dev
    | rewrite run_dev_err
    | rewrite run_usb_register_dev
    | rewrite run_usb_set_intfdata ];
  cbv beta iota.

Lemma probe_runs_to_success (s : kstate) (ep_addr minor : Z) :
  run (co2meter_probe true (Some ep_addr) (inl minor)) s =
  Ret 0 {| heap := <[fresh (dom (heap s)) := probed ep_addr]> (heap s);
           node := Some minor;
           intfdata := Some (fresh (dom (heap s)));
           wq_running := wq_running s;
           private_data := private_data s;
           klog := klog s; freed := freed s;
           freed_sessions := freed_sessions s;
           minor_rwsem := minor_rwsem s |}.
Proof.
  unfold co2meter_probe, mutex_init, usb_find_common_endpoints, INIT_WORK.
  repeat run_attach. simpl Z.eqb. simpl negb. cbv iota.
  repeat run_attach. simpl Z.eqb. simpl negb. cbv iota.
  repeat run_attach.
  unfold with_intfdata, with_node, with_heap; simpl.
  rewrite !insert_insert_eq. reflexivity.
Qed.

(** X7: when [kzalloc] has memory, the current altsetting has an
    interrupt-IN endpoint (the slot that the call at lines 132-133 asks
    for) and the host assigns a minor, [co2meter_probe] returns 0 and
    leaves one new device object, at an address that was free: not ready,
    reading 0, guard free, the address of that interrupt-IN endpoint
    recorded, first poll iteration queued; the node is registered under
    the minor and the interface points to the object. Nothing else
    changes. *)
Theorem probe_success (s : kstate) (ep_addr minor : Z) :
  heap s !! fresh (dom (heap s)) = None /\
  run (co2meter_probe true (Some ep_addr) (inl minor)) s =
  Ret 0 {| heap := <[fresh (dom (heap s)) := probed ep_addr]> (heap s);
           node := Some minor;
           intfdata := Some (fresh (dom (heap s)));
           wq_running := wq_running s;
           private_data := private_data s;
           klog := klog s; freed := freed s;
           freed_sessions := freed_sessions s;
           minor_rwsem := minor_rwsem s |}.
Proof.
  split; [apply fresh_not_live | apply probe_runs_to_success].
Qed.

(** X8: the three ways [co2meter_probe] fails. Without memory it returns
    -ENOMEM and changes nothing. Without an interrupt-IN endpoint on the
    current altsetting (whatever bulk endpoints it has) it returns -ENXIO
    and logs "Could not find bulk-in endpoint"; when the host refuses a
    minor with error [e] it returns [e] and logs "Unable to allocate minor
    number". In both of these cases it frees the object it had allocated,
    so that the device objects, the node and the interface's data pointer
    are as before. *)
Theorem probe_failure (s : kstate) (int_in : option Z) (ep_addr e : Z)
    (registration : Z + Z) :
  run (co2meter_probe false int_in registration) s = Ret (- ENOMEM) s /\
  (exists s',
     run (co2meter_probe true None registration) s = Ret (- ENXIO) s' /\
     heap s' = heap s /\ node s' = node s /\ intfdata s' = intfdata s /\
     private_data s' = private_data s /\
     klog s' = klog s ++ ["Could not find bulk-in endpoint"%string]) /\
  (e <> 0 ->
   exists s',
     run (co2meter_probe true (Some ep_addr) (inr e)) s = Ret e s' /\
     heap s' = heap s /\ node s' = node s /\ intfdata s' = intfdata s /\
     private_data s' = private_data s /\
     klog s' = klog s ++ ["Unable to allocate minor number"%string]).
Proof.
  pose proof (fresh_not_live s) as Hfresh.
  split; [| split].
  - unfold co2meter_probe. repeat run_attach. reflexivity.
  - eexists. split.
    + unfold co2meter_probe, mutex_init, usb_find_common_endpoints,
        co2meter_delete.
      repeat run_attach. simpl Z.eqb. simpl negb. cbv iota.
      repeat run_attach.
      erewrite run_kfree by (simpl; apply lookup_insert_eq).
      repeat run_attach. reflexivity.
    + simpl. rewrite delete_insert_id by exact Hfresh.
      repeat split; reflexivity.
  - intros He. eexists. split.
    + unfold co2meter_probe, mutex_init, usb_find_common_endpoints,
        co2meter_delete.
      repeat run_attach. simpl Z.eqb. simpl negb. cbv iota.
      repeat run_attach.
      destruct (Z.eqb_spec e 0) as [E | _]; [contradiction |].
      simpl negb. cbv iota. repeat run_attach.
      erewrite run_kfree by (simpl; apply lookup_insert_eq).
      repeat run_attach. reflexivity.
    + simpl. rewrite delete_insert_id by exact Hfresh.
      repeat split; reflexivity.
Qed.

Lemma probe_failure_witness :
  exists s',
    run (co2meter_probe true (Some 0x81) (inr (-54))) warmed = Ret (-54) s' /\
    heap s' = heap warmed /\ node s' = node warmed /\
    intfdata s' = intfdata warmed /\
    private_data s' = private_data warmed /\
    klog s' = klog warmed ++ ["Unable to allocate minor number"%string].
Proof.
  apply (proj2 (proj2 (probe_failure warmed None 0x81 (-54) (inl 0)))).
  discriminate.
Defined.

(** ** Attach and detach together *)

(** X9: an attach that succeeds followed by a detach, with the work queue
    idle and no [open] holding the host's minor table, returns with the
    device objects exactly as before the attach and no node registered.
    The object that attach allocated has gone to [kfree] with its work
    item no longer pending (the queued poll iteration was cancelled) and
    with its guard held; the interface's data pointer still names it; the
    sessions, the log and everything else are untouched. *)
Theorem attach_then_detach (s : kstate) (ep_addr minor : Z) :
  wq_running s = false ->
  minor_rwsem s = None \/ minor_rwsem s = Some 0%nat ->
  run (co2meter_probe true (Some ep_addr) (inl minor) ;;
       co2meter_disconnect) s =
  Ret tt {| heap := heap s;
            node := None;
            intfdata := Some (fresh (dom (heap s)));
            wq_running := wq_running s;
            private_data := private_data s;
            klog := klog s;
            freed := freed s ++
                     [{| lock := true; work_data := {| pending := false |};
                         read_endpoint := ep_addr; co2_level := 0;
                         ready := 0 |}];
            freed_sessions := freed_sessions s;
            minor_rwsem := minor_rwsem s |}.
Proof.
  intros Hidle Hsem.
  pose proof (fresh_not_live s) as Hfresh.
  rewrite run_bind, (probe_runs_to_success s ep_addr minor). cbv iota.
  rewrite (disconnect_frees_locked _ (fresh (dom (heap s))) (probed ep_addr));
    [| reflexivity | simpl; apply lookup_insert_eq | reflexivity
     | assumption | assumption ].
  unfold with_freed, with_heap, with_node; simpl.
  rewrite delete_insert_id by exact Hfresh. reflexivity.
Qed.

Lemma attach_then_detach_witness :
  run (co2meter_probe true (Some 0x81) (inl CO2MON_MINOR_BASE) ;;
       co2meter_disconnect) boot =
  Ret tt {| heap := heap boot;
            node := None;
            intfdata := Some (fresh (dom (heap boot)));
            wq_running := wq_running boot;
            private_data := private_data boot;
            klog := klog boot;
            freed := freed boot ++
                     [{| lock := true; work_data := {| pending := false |};
                         read_endpoint := 0x81; co2_level := 0;
                         ready := 0 |}];
            freed_sessions := freed_sessions boot;
            minor_rwsem := minor_rwsem boot |}.
Proof.
  apply (attach_then_detach boot 0x81 CO2MON_MINOR_BASE).
  - reflexivity.
  - left. reflexivity.
Defined.

(** X10: after a detach that returned, [open] on any minor returns
    -ENODEV and touches nothing. *)
Theorem open_after_detach (s : kstate) (l : loc) (d : usb_co2meter)
    (minor : Z) (file : nat) (alloc_ok : bool) :
  intfdata s = Some l -> heap s !! l = Some d -> lock d = false ->
  wq_running s = false ->
  minor_rwsem s = None \/ minor_rwsem s = Some 0%nat ->
  exists s',
    run co2meter_disconnect s = Ret tt s' /\
    run (co2meter_disconnect ;; co2meter_open minor file alloc_ok) s
    = Ret (- ENODEV) s'.
Proof.
  intros Hdata Hlive Hfree Hidle Hsem.
  eexists. split.
  - apply (disconnect_frees_locked s l d); assumption.
  - rewrite run_bind, (disconnect_frees_locked s l d) by assumption.
    cbv iota. apply open_no_node. simpl. discriminate.
Qed.

Lemma open_after_detach_witness :
  exists s',
    run co2meter_disconnect warmed = Ret tt s' /\
    run (co2meter_disconnect ;;
         co2meter_open CO2MON_MINOR_BASE 7%nat true) warmed
    = Ret (- ENODEV) s'.
Proof.
  apply (open_after_detach warmed the_dev
           {| lock := false; work_data := {| pending := true |};
              read_endpoint := 0x81; co2_level := 400; ready := 1 |}
           CO2MON_MINOR_BASE 7%nat true).
  - reflexivity.
  - reflexivity.
  - reflexivity.
  - reflexivity.
  - left. reflexivity.
Defined.

(** Detach of a device whose guard is held, with the work queue idle:
    the queued iteration is cancelled and the call then waits for the
    guard. *)
Lemma disconnect_guard_held (s : kstate) (l : loc) (d : usb_co2meter) :
  intfdata s = Some l -> heap s !! l = Some d -> lock d = true ->
  wq_running s = false ->
  run co2meter_disconnect s =
  Sleep (with_heap (<[l := set_pending false d]> (heap s)) s).
Proof.
  intros Hdata Hlive Hheld Hidle. unfold co2meter_disconnect.
  repeat run_prim. rewrite Hdata.
  rewrite (run_cancel_work_sync s l d Hlive Hidle). cbv iota.
  repeat run_prim. simpl lock. rewrite Hheld. reflexivity.
Qed.

(** X11: after a poll iteration whose buffer allocation failed, detach
    never returns. It cancels the queued work (the work item is no longer
    pending) and then waits for the guard that the iteration still holds:
    the device object stays allocated, with its guard held and its reading
    as it was, the node stays registered, and nothing but the failed
    iteration's log message has changed besides. *)
Theorem detach_after_failed_allocation (s : kstate) (l : loc)
    (d : usb_co2meter) (io : poll_io) :
  intfdata s = Some l -> heap s !! l = Some d -> lock d = false ->
  buf_alloc io = false ->
  wq_running s = false ->
  run (co2meter_handle_input (Some l) io ;; co2meter_disconnect) s =
  Sleep (with_heap
           (<[l := {| lock := true; work_data := {| pending := false |};
                      read_endpoint := read_endpoint d;
                      co2_level := co2_level d; ready := ready d |}]>
              (heap s))
           (with_klog
              (klog s ++ ["Could not allocate buffer for transfer"%string])
              s)).
Proof.
  intros Hdata Hlive Hfree Hbuf Hidle.
  rewrite run_bind, (handle_input_no_memory s l d io Hlive Hfree Hbuf).
  cbv iota.
  rewrite (disconnect_guard_held _ l (set_pending true (set_lock true d)));
    [| assumption | simpl; apply lookup_insert_eq | reflexivity | assumption].
  unfold with_heap, with_klog; simpl.
  rewrite insert_insert_eq. reflexivity.
Qed.

Lemma detach_after_failed_allocation_witness :
  run (co2meter_handle_input (Some the_dev) no_memory ;;
       co2meter_disconnect) warmed =
  Sleep (with_heap
           (<[the_dev := {| lock := true; work_data := {| pending := false |};
                            read_endpoint := 0x81;
                            co2_level := 400; ready := 1 |}]>
              (heap warmed))
           (with_klog
              (klog warmed ++ ["Could not allocate buffer for transfer"%string])
              warmed)).
Proof.
  apply (detach_after_failed_allocation warmed the_dev
           {| lock := false; work_data := {| pending := true |};
              read_endpoint := 0x81; co2_level := 400; ready := 1 |}
           no_memory); reflexivity.
Defined.

(** ** Close *)

Lemma run_release (s : kstate) (file : nat) :
  run (co2meter_release file) s =
  Ret 0 match private_data s !! file with
        | Some fd => with_freed_sessions (freed_sessions s ++ [fd]) s
        | None => s
        end.
Proof.
  unfold co2meter_release, kfree_file_data. repeat run_prim.
  destruct (private_data s !! file) as [fd |] eqn:E.
  - repeat run_prim. reflexivity.
  - repeat run_prim. reflexivity.
Qed.

(** X12: [release] always returns 0. It gives the session of that file to
    [kfree] when there is one, and nothing otherwise; it does not write
    [file->private_data], which goes on naming the freed session, and it
    changes nothing else. After an [open] that succeeded, [release] frees
    exactly the session that [open] stored, so a pair of open and close
    leaves no session allocated. *)
Theorem release_frees_only_its_session (s : kstate) (file : nat) :
  (exists s',
     run (co2meter_release file) s = Ret 0 s' /\
     freed_sessions s' =
       freed_sessions s ++ match private_data s !! file with
                           | Some fd => [fd]
                           | None => []
                           end /\
     private_data s' = private_data s /\
     heap s' = heap s /\ node s' = node s /\ intfdata s' = intfdata s /\
     freed s' = freed s /\ klog s' = klog s) /\
  (forall minor l d,
     node s = Some minor -> intfdata s = Some l -> heap s !! l = Some d ->
     lock d = false -> ready d <> 0 ->
     exists s',
       run (co2meter_open minor file true ;; co2meter_release file) s
       = Ret 0 s' /\
       freed_sessions s' = freed_sessions s ++ [session_of (co2_level d)] /\
       private_data s' !! file = Some (session_of (co2_level d)) /\
       heap s' = heap s).
Proof.
  split.
  - eexists. split; [apply run_release |].
    destruct (private_data s !! file) as [fd |]; simpl;
      [| rewrite app_nil_r]; repeat split; reflexivity.
  - intros minor l d Hnode Hdata Hlive Hfree Hready.
    rewrite run_bind, (open_ready s minor file l d) by assumption.
    cbv iota. rewrite run_release. simpl private_data.
    rewrite lookup_insert_eq. eexists. split; [reflexivity |].
    simpl. rewrite lookup_insert_eq. repeat split; reflexivity.
Qed.

Lemma release_frees_only_its_session_witness :
  exists s',
    run (co2meter_open CO2MON_MINOR_BASE 7%nat true ;; co2meter_release 7%nat)
        warmed
    = Ret 0 s' /\
    freed_sessions s' = freed_sessions warmed ++ [session_of 400] /\
    private_data s' !! 7%nat = Some (session_of 400) /\
    heap s' = heap warmed.
Proof.
  apply (proj2 (release_frees_only_its_session warmed 7%nat)
           CO2MON_MINOR_BASE the_dev
           {| lock := false; work_data := {| pending := true |};
              read_endpoint := 0x81; co2_level := 400; ready := 1 |}).
  - reflexivity.
  - reflexivity.
  - reflexivity.
  - reflexivity.
  - simpl. discriminate.
Defined.

(** ** Open: every way it can return *)

(** The interface is registered but its data pointer is NULL or names no
    live object: [open] faults at [mutex_lock]. *)
Lemma open_bad_pointer (s : kstate) (minor : Z) (file : nat)
    (alloc_ok : bool) :
  node s = Some minor ->
  (intfdata s = None \/
   exists l, intfdata s = Some l /\ heap s !! l = None) ->
  run (co2meter_open minor file alloc_ok) s = Oops s.
Proof.
  intros Hnode Hbad. unfold co2meter_open. repeat run_prim.
  rewrite Hnode, Z.eqb_refl. simpl negb. cbv iota.
  repeat run_prim.
  destruct Hbad as [-> | (l & -> & Hl)]; simpl; [| rewrite Hl]; reflexivity.
Qed.

(** X13: [co2meter_open] returns nothing but 0 and -ENODEV. When it
    returns -ENODEV the state is as it was. When it returns 0 there was
    memory for the session, the device had a reading, and the only change
    is the session stored on the file, which renders [co2_level]. In both
    cases the device objects, their guards included, are as before. *)
Theorem open_returns (s s' : kstate) (minor : Z) (file : nat)
    (alloc_ok : bool) (r : Z) :
  run (co2meter_open minor file alloc_ok) s = Ret r s' ->
  heap s' = heap s /\
  ((r = - ENODEV /\ s' = s) \/
   (r = 0 /\ alloc_ok = true /\
    exists l d,
      intfdata s = Some l /\ heap s !! l = Some d /\
      lock d = false /\ ready d <> 0 /\
      s' = with_private_data
             (<[file := session_of (co2_level d)]> (private_data s)) s)).
Proof.
  intros Hrun.
  destruct (decide (node s = Some minor)) as [Hnode | Hnode].
  2: { rewrite (open_no_node s minor file alloc_ok Hnode) in Hrun.
       inversion Hrun; subst. split; [reflexivity | left; split; reflexivity]. }
  destruct (intfdata s) as [l |] eqn:Hdata.
  2: { rewrite (open_bad_pointer s minor file alloc_ok Hnode) in Hrun
         by (left; exact Hdata).
       discriminate Hrun. }
  destruct (heap s !! l) as [d |] eqn:Hlive.
  2: { rewrite (open_bad_pointer s minor file alloc_ok Hnode) in Hrun
         by (right; exists l; split; assumption).
       discriminate Hrun. }
  destruct (lock d) eqn:Hlock.
  { rewrite (open_guard_held s minor file alloc_ok l d) in Hrun by assumption.
    discriminate Hrun. }
  destruct (decide (ready d = 0)) as [Hready | Hready].
  { rewrite (open_not_ready s minor file alloc_ok l d) in Hrun by assumption.
    inversion Hrun; subst. split; [reflexivity | left; split; reflexivity]. }
  destruct alloc_ok.
  - rewrite (open_ready s minor file l d) in Hrun by assumption.
    inversion Hrun; subst. split; [reflexivity |].
    right. split; [reflexivity |]. split; [reflexivity |].
    exists l, d. repeat split; assumption || reflexivity.
  - rewrite (open_no_memory s minor file l d) in Hrun by assumption.
    discriminate Hrun.
Qed.

Lemma open_returns_witness :
  heap (final (run (co2meter_open CO2MON_MINOR_BASE 7%nat true) warmed))
  = heap warmed /\
  ((0 = - ENODEV /\
    final (run (co2meter_open CO2MON_MINOR_BASE 7%nat true) warmed) = warmed) \/
   (0 = 0 /\ true = true /\
    exists l d,
      intfdata warmed = Some l /\ heap warmed !! l = Some d /\
      lock d = false /\ ready d <> 0 /\
      final (run (co2meter_open CO2MON_MINOR_BASE 7%nat true) warmed)
      = with_private_data
          (<[7%nat := session_of (co2_level d)]> (private_data warmed))
          warmed)).
Proof.
  apply (open_returns warmed _ CO2MON_MINOR_BASE 7%nat true 0).
  vm_compute. reflexivity.
Defined.

(** ** Open while attach is under way *)

(** X14: [co2meter_probe] registers the node before it sets the
    interface's data pointer. Five steps into an attach that is going to
    succeed (up to and including [usb_register_dev]), on an interface whose
    data pointer is still NULL, the node is there and the pointer is not:
    an [open] of that minor running at this moment passes the test for the
    interface and faults in [mutex_lock] on the NULL pointer. *)
Theorem open_during_attach (s : kstate) (ep_addr minor : Z) (file : nat)
    (alloc_ok : bool) :
  intfdata s = None ->
  exists t s',
    advance_n 5 (Running (co2meter_probe true (Some ep_addr) (inl minor))) s
    = Some (t, s') /\
    status_of t = Inside /\
    node s' = Some minor /\ intfdata s' = None /\
    run (co2meter_open minor file alloc_ok) s' = Oops s'.
Proof.
  intros Hnull.
  unfold co2meter_probe, mutex_init, usb_find_common_endpoints.
  simpl. rewrite lookup_insert_eq. simpl. rewrite lookup_insert_eq.
  simpl. rewrite lookup_insert_eq. simpl.
  eexists. eexists. split; [reflexivity |].
  split; [reflexivity |]. split; [reflexivity |].
  split; [exact Hnull |].
  apply open_bad_pointer; [reflexivity | left; exact Hnull].
Qed.

Lemma open_during_attach_witness :
  exists t s',
    advance_n 5 (Running (co2meter_probe true (Some 0x81)
                                         (inl CO2MON_MINOR_BASE))) boot
    = Some (t, s') /\
    status_of t = Inside /\
    node s' = Some CO2MON_MINOR_BASE /\ intfdata s' = None /\
    run (co2meter_open CO2MON_MINOR_BASE 7%nat true) s' = Oops s'.
Proof.
  apply (open_during_attach boot 0x81 CO2MON_MINOR_BASE 7%nat true).
  reflexivity.
Defined.

(** ** What only attach and detach do *)

Lemma same_lifecycle_refl (s : kstate) : same_lifecycle s s.
Proof. repeat split; reflexivity. Qed.

Lemma same_lifecycle_trans (s1 s2 s3 : kstate) :
  same_lifecycle s1 s2 -> same_lifecycle s2 s3 -> same_lifecycle s1 s3.
Proof.
  intros (H1 & H2 & H3 & H4) (H1' & H2' & H3' & H4').
  repeat split; congruence.
Qed.

Lemma same_lifecycle_store (s : kstate) (l : loc) (d d' : usb_co2meter) :
  heap s !! l = Some d ->
  same_lifecycle s (with_heap (<[l := d']> (heap s)) s).
Proof.
  intros Hl. split; [| repeat split; reflexivity].
  simpl. apply dom_insert_lookup_L. rewrite Hl. eauto.
Qed.

Ltac lifecycle_step :=
  first
    [ apply same_lifecycle_refl
    | eapply same_lifecycle_store; eassumption
    | repeat split; reflexivity ].

Lemma handle_input_same_lifecycle (dev : option loc) (io : poll_io) :
  preserves same_lifecycle (co2meter_handle_input dev io).
Proof.
  unfold co2meter_handle_input, mutex_lock, mutex_unlock, schedule_work,
    load, update, dev_err, usb_bulk_msg.
  split_prog_eq; step_cases; lifecycle_step.
Qed.

Lemma poll_loop_same_lifecycle (dev : loc) (ios : list poll_io) :
  preserves same_lifecycle (poll_loop dev ios).
Proof.
  induction ios as [| io ios IH]; [exact I |].
  change (poll_loop dev (io :: ios))
    with (bind (process_one_work dev io) (fun _ => poll_loop dev ios)).
  apply preserves_bind; [| intros _; exact IH].
  unfold process_one_work.
  apply preserves_bind;
    [unfold claim_work; split_prog_eq; step_cases; lifecycle_step |].
  intros [|]; [| exact I].
  apply preserves_bind; [apply handle_input_same_lifecycle |].
  intros. split_prog_eq; step_cases; lifecycle_step.
Qed.

Lemma open_same_lifecycle (minor : Z) (file : nat) (alloc_ok : bool) :
  preserves same_lifecycle (co2meter_open minor file alloc_ok).
Proof.
  unfold co2meter_open, usb_find_interface, usb_get_intfdata, mutex_lock,
    mutex_unlock, load, update, kzalloc_file_data, format_file_data,
    set_private_data.
  split_prog_eq; step_cases; lifecycle_step.
Qed.

Lemma read_same_lifecycle (file : nat) (count ppos : Z) :
  preserves same_lifecycle (co2meter_read file count ppos).
Proof.
  unfold co2meter_read, get_private_data.
  split_prog_eq; step_cases; lifecycle_step.
Qed.

Lemma release_same_lifecycle (file : nat) :
  preserves same_lifecycle (co2meter_release file).
Proof.
  unfold co2meter_release, get_private_data, kfree_file_data.
  split_prog_eq; step_cases; lifecycle_step.
Qed.

(** X15: neither the Poll Loop nor [open], [read] or [release] ever
    allocates or frees a device object, registers or deregisters the node,
    or changes the interface's data pointer, however the call ends: the
    set of live device objects, the node, the pointer and the record of
    freed objects are the same afterwards. *)
Theorem only_attach_and_detach_change_lifecycle :
  (forall s dev io,
     same_lifecycle s (final (run (co2meter_handle_input dev io) s))) /\
  (forall s dev ios,
     same_lifecycle s (final (run (poll_loop dev ios) s))) /\
  (forall s minor file alloc_ok,
     same_lifecycle s (final (run (co2meter_open minor file alloc_ok) s))) /\
  (forall s file count ppos,
     same_lifecycle s (final (run (co2meter_read file count ppos) s))) /\
  (forall s file,
     same_lifecycle s (final (run (co2meter_release file) s))).
Proof.
  assert (K : forall (A : Type) (p : prog A),
             preserves same_lifecycle p ->
             forall s, same_lifecycle s (final (run p s))).
  { intros A p Hp.
    apply (run_preserves same_lifecycle p
             same_lifecycle_refl same_lifecycle_trans Hp). }
  split; [intros s dev io; apply K, handle_input_same_lifecycle |].
  split; [intros s dev ios; apply K, poll_loop_same_lifecycle |].
  split; [intros s minor file alloc_ok; apply K, open_same_lifecycle |].
  split; [intros s file count ppos; apply K, read_same_lifecycle |].
  intros s file; apply K, release_same_lifecycle.
Qed.
